(** * PIDA event pipeline: a shallow embedding and its properties

  The development follows the layout of the Python package: one module per
  source module ([agent.models.*], [agent.monitors.input_monitor],
  [agent.engine.timeline], [agent.engine.event_bus],
  [agent.monitors.session_monitor], [agent.alerts.email_notifier],
  [agent.db.database]).  Definitions come first, theorems afterwards. *)

From Stdlib Require Import ZArith String Ascii Bool Lia Floats.
From stdpp Require Import base option list gmap strings pretty.

Local Open Scope string_scope.
Local Open Scope Z_scope.

(** ** Python's [datetime] (aware, UTC) *)

Module Datetime.

(** A [datetime] object is its civil fields; every instant of the program is
    built with [datetime.now(timezone.utc)], so the offset is always UTC. *)
Record datetime := mk {
  year : Z; month : Z; day : Z;
  hour : Z; minute : Z; second : Z; microsecond : Z
}.

Definition _is_leap (y : Z) : bool :=
  (y mod 4 =? 0) && (negb (y mod 100 =? 0) || (y mod 400 =? 0)).

Definition _days_before_year (y : Z) : Z :=
  let y1 := y - 1 in y1 * 365 + y1 / 4 - y1 / 100 + y1 / 400.

Definition _DAYS_BEFORE_MONTH : list Z :=
  [0; 31; 59; 90; 120; 151; 181; 212; 243; 273; 304; 334].

Definition _days_before_month (y m : Z) : Z :=
  nth (Z.to_nat (m - 1)) _DAYS_BEFORE_MONTH 0
  + (if (2 <? m) && _is_leap y then 1 else 0).

Definition _ymd2ord (y m d : Z) : Z :=
  _days_before_year y + _days_before_month y m + d.

Definition toordinal (d : datetime) : Z := _ymd2ord (year d) (month d) (day d).

(** [datetime.weekday()]: Monday is 0. *)
Definition weekday (d : datetime) : Z := (toordinal d + 6) mod 7.

(** Microseconds since ordinal day 0; comparison of two UTC datetimes is
    comparison of these. *)
Definition to_micros (d : datetime) : Z :=
  (((toordinal d * 24 + hour d) * 60 + minute d) * 60 + second d) * 1000000
  + microsecond d.

Definition ltb (a b : datetime) : bool := to_micros a <? to_micros b.
Definition leb (a b : datetime) : bool := to_micros a <=? to_micros b.

Definition digit (n : Z) : ascii := ascii_of_nat (48 + Z.to_nat (n mod 10)).

(** ["%0<width>d"] for a number that fits in [width] digits. *)
Fixpoint pad_dec (width : nat) (n : Z) : string :=
  match width with
  | O => ""
  | S w => pad_dec w (n / 10) +:+ String (digit n) ""
  end.

(** [datetime.isoformat()] of a UTC datetime. *)
Definition isoformat (d : datetime) : string :=
  pad_dec 4 (year d) +:+ "-" +:+ pad_dec 2 (month d) +:+ "-" +:+ pad_dec 2 (day d)
  +:+ "T" +:+ pad_dec 2 (hour d) +:+ ":" +:+ pad_dec 2 (minute d)
  +:+ ":" +:+ pad_dec 2 (second d)
  +:+ (if microsecond d =? 0 then "" else "." +:+ pad_dec 6 (microsecond d))
  +:+ "+00:00".

(** A datetime parsed by [datetime.fromisoformat] from a caller's text (the
    [since] of [GET /timeline]): the civil fields as written and the UTC
    offset in minutes, [None] for a text without offset (a naive
    datetime). *)
Record zoned := mkZoned {
  wall : datetime;
  utcoffset : option Z
}.


(** The ["+HH:MM"] or ["-HH:MM"] that [isoformat()] appends for an aware
    datetime; nothing for a naive one. *)
Definition offset_text (o : option Z) : string :=
  match o with
  | None => ""
  | Some m =>
      (if m <? 0 then "-" else "+")
      +:+ pad_dec 2 (Z.abs m / 60) +:+ ":" +:+ pad_dec 2 (Z.abs m mod 60)
  end.

(** [datetime.isoformat()]: the civil fields as they are, then the offset. *)
Definition isoformat_zoned (z : zoned) : string :=
  let d := wall z in
  pad_dec 4 (year d) +:+ "-" +:+ pad_dec 2 (month d) +:+ "-" +:+ pad_dec 2 (day d)
  +:+ "T" +:+ pad_dec 2 (hour d) +:+ ":" +:+ pad_dec 2 (minute d)
  +:+ ":" +:+ pad_dec 2 (second d)
  +:+ (if microsecond d =? 0 then "" else "." +:+ pad_dec 6 (microsecond d))
  +:+ offset_text (utcoffset z).


End Datetime.

Abbreviation datetime := Datetime.datetime.

(** [list.append(x)] and [list.extend(xs)] on a Python list. *)
Definition append {A} (l : list A) (x : A) : list A := (l ++ [x])%list.

Definition extend {A} (l xs : list A) : list A := (l ++ xs)%list.

(** What awaiting an opaque coroutine function (a subscriber of the bus, the
    alert callback of the engine) ends in: it returns, it raises an
    [Exception], or it raises a [BaseException] that is not an [Exception]
    ([asyncio.CancelledError], [KeyboardInterrupt], [SystemExit]), which an
    [except Exception] clause does not catch. *)
Inductive Awaited := Returns | RaisesException | RaisesBaseException.

Definition returns (o : Awaited) : bool :=
  match o with Returns => true | _ => false end.

Definition raises_exception (o : Awaited) : bool :=
  match o with RaisesException => true | _ => false end.

Definition raises_base_exception (o : Awaited) : bool :=
  match o with RaisesBaseException => true | _ => false end.

(** ** agent.models *)

(** JSON-serialisable values stored in the [detail] dictionaries. *)
Inductive value :=
| VStr (s : string)
| VInt (n : Z)
| VFloat (f : float).

Module Config.

Record AwayWindow := mk {
  id : string;
  label : string;
  start_hour : Z;
  start_minute : Z;
  end_hour : Z;
  end_minute : Z;
  days : list Z;
  enabled : bool
}.

End Config.

Abbreviation AwayWindow := Config.AwayWindow.

Module Event.

Inductive EventCategory := FILE_SYSTEM | USER_INPUT | SESSION | SYSTEM.

Inductive EventAction :=
| FILE_CREATED | FILE_MODIFIED | FILE_DELETED | FILE_RENAMED | FILE_MOVED
| INPUT_DETECTED | IDLE_STARTED | ACTIVE_DURING_AWAY
| SESSION_LOGON | SESSION_LOGOFF | SESSION_LOCK | SESSION_UNLOCK
| SESSION_RDP | LOGIN_FAILED
| SYSTEM_WAKE | SYSTEM_SLEEP.

Inductive MonitorSource := FOLDER_MONITOR | INPUT_MONITOR | SESSION_MONITOR.

#[global] Instance EventAction_eq_dec : EqDecision EventAction.
Proof. solve_decision. Defined.

#[global] Instance EventCategory_eq_dec : EqDecision EventCategory.
Proof. solve_decision. Defined.

#[global] Instance MonitorSource_eq_dec : EqDecision MonitorSource.
Proof. solve_decision. Defined.

(** The [.value] of the string enums. *)
Definition category_value (c : EventCategory) : string :=
  match c with
  | FILE_SYSTEM => "file_system" | USER_INPUT => "user_input"
  | SESSION => "session" | SYSTEM => "system"
  end.

Definition action_value (a : EventAction) : string :=
  match a with
  | FILE_CREATED => "file_created" | FILE_MODIFIED => "file_modified"
  | FILE_DELETED => "file_deleted" | FILE_RENAMED => "file_renamed"
  | FILE_MOVED => "file_moved" | INPUT_DETECTED => "input_detected"
  | IDLE_STARTED => "idle_started" | ACTIVE_DURING_AWAY => "active_during_away"
  | SESSION_LOGON => "session_logon" | SESSION_LOGOFF => "session_logoff"
  | SESSION_LOCK => "session_lock" | SESSION_UNLOCK => "session_unlock"
  | SESSION_RDP => "session_rdp" | LOGIN_FAILED => "login_failed"
  | SYSTEM_WAKE => "system_wake" | SYSTEM_SLEEP => "system_sleep"
  end.

Definition source_value (s : MonitorSource) : string :=
  match s with
  | FOLDER_MONITOR => "folder_monitor" | INPUT_MONITOR => "input_monitor"
  | SESSION_MONITOR => "session_monitor"
  end.

Record TimelineEvent := mk {
  id : string;
  source : MonitorSource;
  category : EventCategory;
  action : EventAction;
  subject : string;
  target : string;
  detail : gmap string value;
  severity : string;
  timestamp : datetime
}.

End Event.

Abbreviation TimelineEvent := Event.TimelineEvent.
Abbreviation EventAction := Event.EventAction.

Module Alert.

Inductive Severity := INFO | LOW | MEDIUM | HIGH | CRITICAL.

#[global] Instance Severity_eq_dec : EqDecision Severity.
Proof. solve_decision. Defined.

Definition severity_value (s : Severity) : string :=
  match s with
  | INFO => "INFO" | LOW => "LOW" | MEDIUM => "MEDIUM"
  | HIGH => "HIGH" | CRITICAL => "CRITICAL"
  end.

Definition SEVERITY_ORDER (s : Severity) : Z :=
  match s with
  | INFO => 0 | LOW => 1 | MEDIUM => 2 | HIGH => 3 | CRITICAL => 4
  end.

Record Alert := mk {
  id : string;
  severity : Severity;
  message : string;
  source : string;
  detail : gmap string value;
  acknowledged : bool;
  snoozed_until : option datetime;
  created_at : datetime
}.

End Alert.

(** ** agent.monitors.input_monitor: away windows *)

Module InputMonitor.

Import Config.

(** [_is_within_away_window(now, windows)]: the [for] loop over [windows],
    with [continue] on a weekday that is not listed and an early
    [return True] on the first window that covers [now]. *)
Fixpoint _is_within_away_window (now : datetime) (windows : list AwayWindow) : bool :=
  let weekday := Datetime.weekday now in
  let t := Datetime.hour now * 60 + Datetime.minute now in
  match windows with
  | [] => false
  | w :: rest =>
      if negb (bool_decide (weekday ∈ days w)) then
        _is_within_away_window now rest
      else
        let start := start_hour w * 60 + start_minute w in
        let end_ := end_hour w * 60 + end_minute w in
        if start <=? end_ then
          if (start <=? t) && (t <? end_) then true
          else _is_within_away_window now rest
        else
          if (start <=? t) || (t <? end_) then true
          else _is_within_away_window now rest
  end.

(** The fields of [InputMonitor] that [_poll_loop] reads and writes. *)
Record InputMonitor := mk {
  _poll_interval : float;
  _away_windows : list AwayWindow;
  _streak_threshold : float;
  _active_streak : float
}.

Definition set_active_streak (self : InputMonitor) (v : float) : InputMonitor :=
  {| _poll_interval := _poll_interval self;
     _away_windows := _away_windows self;
     _streak_threshold := _streak_threshold self;
     _active_streak := v |}.

(** Truthiness of a Python list. *)
Definition truthy {A} (l : list A) : bool :=
  match l with [] => false | _ => true end.

(** One pass through the body of [while self._running] in [_poll_loop]:
    [idle] is what [self._get_idle()] returned, [now] is
    [datetime.now(timezone.utc)], [eid] and [stamp] are the defaults the
    [TimelineEvent] constructor draws for [id] and [timestamp].  The result is
    the monitor after the sample and the events handed to [bus.publish]. *)
Definition _poll_sample (self : InputMonitor) (idle : float) (now : datetime)
    (eid : string) (stamp : datetime) : InputMonitor * list TimelineEvent :=
  if PrimFloat.ltb idle (_poll_interval self) then
    let self := set_active_streak self
                  (PrimFloat.add (_active_streak self) (_poll_interval self)) in
    if PrimFloat.leb (_streak_threshold self) (_active_streak self)
       && truthy (_away_windows self)
       && _is_within_away_window now (_away_windows self)
    then
      let event :=
        Event.mk eid Event.INPUT_MONITOR Event.USER_INPUT Event.ACTIVE_DURING_AWAY
          "" ""
          (<["streak_seconds" := VFloat (_active_streak self)]>
             (<["idle_seconds" := VFloat idle]> ∅))
          "MEDIUM" stamp in
      (set_active_streak self 0%float, [event])
    else if PrimFloat.eqb (_active_streak self) (_poll_interval self) then
      let event :=
        Event.mk eid Event.INPUT_MONITOR Event.USER_INPUT Event.INPUT_DETECTED
          "" "" (<["idle_seconds" := VFloat idle]> ∅) "INFO" stamp in
      (self, [event])
    else (self, [])
  else
    let published :=
      if PrimFloat.ltb 0%float (_active_streak self) then
        [Event.mk eid Event.INPUT_MONITOR Event.USER_INPUT Event.IDLE_STARTED
           "" "" (<["last_active_streak" := VFloat (_active_streak self)]> ∅)
           "INFO" stamp]
      else [] in
    (set_active_streak self 0%float, published).


(** [start()], as far as the streak goes: the streak starts at zero. *)
Definition start (self : InputMonitor) : InputMonitor :=
  set_active_streak self 0%float.

(** What one iteration of [_poll_loop] reads from its environment. *)
Record Reading := mkReading {
  idle : float;
  now : datetime;
  eid : string;
  stamp : datetime
}.

(** Successive iterations of [_poll_loop], one per reading: the monitor
    afterwards and everything handed to [bus.publish], in order. *)
Fixpoint _poll_loop (self : InputMonitor) (readings : list Reading) :
    InputMonitor * list TimelineEvent :=
  match readings with
  | [] => (self, [])
  | r :: rest =>
      let '(self', published) := _poll_sample self (idle r) (now r) (eid r) (stamp r) in
      let '(self'', more) := _poll_loop self' rest in
      (self'', extend published more)
  end.

End InputMonitor.

(** ** agent.engine.event_bus *)

Module EventBus.

(** [asyncio.Queue(maxsize)]: the items in FIFO order. *)
Record Queue := mkQueue {
  maxsize : Z;
  items : list TimelineEvent
}.

Definition qsize (q : Queue) : Z := Z.of_nat (length (items q)).

(** [Queue.full()]: a queue with [maxsize <= 0] is never full. *)
Definition full (q : Queue) : bool :=
  if maxsize q <=? 0 then false else maxsize q <=? qsize q.

(** What an awaited call does next: it returns, it raises, or the coroutine
    stays suspended on a future that only another task can resolve. *)
Inductive outcome (A : Type) :=
| Returned (a : A)
| Raised (exc : string)
| Suspended.

Arguments Returned {A} a.
Arguments Raised {A} exc.
Arguments Suspended {A}.

(** [await Queue.put(item)]: [while self.full(): await putter], then
    [put_nowait].  The queue alone never frees a slot, so on a full queue the
    caller stays suspended. *)
Definition put (q : Queue) (item : TimelineEvent) : outcome Queue :=
  if full q then Suspended
  else Returned (mkQueue (maxsize q) (append (items q) item)).

Record EventBus := mk {
  _queue : Queue;
  _subscribers : list string;
  _running : bool
}.

(** [EventBus(maxsize)]. *)
Definition new (maxsize : Z) : EventBus := mk (mkQueue maxsize []) [] false.

(** [async def publish(self, event): await self._queue.put(event)]. *)
Definition publish (self : EventBus) (event : TimelineEvent) : outcome EventBus :=
  match put (_queue self) event with
  | Returned q => Returned (mk q (_subscribers self) (_running self))
  | Raised exc => Raised exc
  | Suspended => Suspended
  end.

Definition pending (self : EventBus) : Z := qsize (_queue self).


(** [subscribe(callback)].  A subscriber is an opaque coroutine function; the
    bus keeps it by identity, here by name. *)
Definition subscribe (self : EventBus) (callback : string) : EventBus :=
  mk (_queue self) (append (_subscribers self) callback) (_running self).

(** [list.remove(x)]: the list without the first item equal to [x];
    [None] is the [ValueError] raised when no item is. *)
Fixpoint list_remove (x : string) (l : list string) : option (list string) :=
  match l with
  | [] => None
  | y :: rest =>
      if String.eqb y x then Some rest
      else match list_remove x rest with
           | Some rest' => Some (y :: rest')
           | None => None
           end
  end.

(** [unsubscribe(callback)]. *)
Definition unsubscribe (self : EventBus) (callback : string) : outcome EventBus :=
  match list_remove callback (_subscribers self) with
  | Some subs => Returned (mk (_queue self) subs (_running self))
  | None => Raised "ValueError"
  end.

Definition subscriber_count (self : EventBus) : nat := length (_subscribers self).

(** [start()] and [stop()], as far as the flag goes. *)
Definition start (self : EventBus) : EventBus :=
  if _running self then self
  else mk (_queue self) (_subscribers self) true.

Definition stop (self : EventBus) : EventBus :=
  mk (_queue self) (_subscribers self) false.

(** What the dispatch loop does: the calls it makes, in order, the
    subscriber failures it logs, and the subscriber and event id of the call
    whose [BaseException] left the loop, if one did. *)
Record Trace := mkTrace {
  calls : list (string * TimelineEvent);
  failures : list (string * string);
  escaped : option (string * string)
}.

(** The [for sub in self._subscribers] loop for one event.  [handler sub
    event] is what awaiting subscriber [sub] on [event] ends in: an
    [Exception] is caught and logged and the next subscriber is called; a
    [BaseException] is not caught, so the loop ends with that call. *)
Fixpoint call_subscribers (handler : string -> TimelineEvent -> Awaited)
    (subs : list string) (event : TimelineEvent) (t : Trace) : Trace :=
  match subs with
  | [] => t
  | sub :: rest =>
      match handler sub event with
      | Returns =>
          call_subscribers handler rest event
            (mkTrace (append (calls t) (sub, event)) (failures t) (escaped t))
      | RaisesException =>
          call_subscribers handler rest event
            (mkTrace (append (calls t) (sub, event))
               (append (failures t) (sub, Event.id event)) (escaped t))
      | RaisesBaseException =>
          mkTrace (append (calls t) (sub, event)) (failures t)
            (Some (sub, Event.id event))
      end
  end.

(** The iterations of [_dispatch_loop] that find an event in the queue, one
    per queued event, in queue order, up to the call that a [BaseException]
    leaves: the trace and the events still in the queue. *)
Fixpoint dispatch_events (handler : string -> TimelineEvent -> Awaited)
    (subs : list string) (events : list TimelineEvent) (t : Trace) :
    Trace * list TimelineEvent :=
  match events with
  | [] => (t, [])
  | event :: rest =>
      let t := call_subscribers handler subs event t in
      match escaped t with
      | Some _ => (t, rest)
      | None => dispatch_events handler subs rest t
      end
  end.

(** [_dispatch_loop] run until the queue is empty or a subscriber's
    [BaseException] ends the task, with subscribers that neither publish nor
    change the subscriber list: a bus that is not running dispatches
    nothing.  The flag [_running] is not touched by the loop. *)
Definition _dispatch_loop (handler : string -> TimelineEvent -> Awaited)
    (self : EventBus) : EventBus * Trace :=
  if _running self
  then
    let result :=
      dispatch_events handler (_subscribers self) (items (_queue self))
        (mkTrace [] [] None) in
    (mk (mkQueue (maxsize (_queue self)) result.2) (_subscribers self)
       (_running self),
     result.1)
  else (self, mkTrace [] [] None).

(** A run of [publish] calls, stopping at the first that does not return. *)
Fixpoint publish_sequence (self : EventBus) (events : list TimelineEvent) :
    outcome EventBus :=
  match events with
  | [] => Returned self
  | event :: rest =>
      match publish self event with
      | Returned self' => publish_sequence self' rest
      | Raised exc => Raised exc
      | Suspended => Suspended
      end
  end.

End EventBus.

(** ** agent.db.database *)

Module Database.

(** A row of [timeline_events].  The [detail] column holds [json.dumps] of the
    mapping and [_row_to_dict] decodes it again; the row keeps the mapping. *)
Record EventRow := mkEventRow {
  id : string;
  source : string;
  category : string;
  action : string;
  subject : string;
  target : string;
  detail : gmap string value;
  severity : string;
  timestamp : string
}.

(** A row of [alerts]; [acknowledged] is the stored integer. *)
Record AlertRow := mkAlertRow {
  alert_id : string;
  alert_severity : string;
  message : string;
  alert_source : string;
  alert_detail : gmap string value;
  acknowledged : Z;
  snoozed_until : option string;
  created_at : string
}.

Record Db := mkDb {
  timeline_events : list EventRow;
  alerts : list AlertRow
}.

Definition empty : Db := mkDb [] [].

Definition event_row (event : TimelineEvent) : EventRow :=
  mkEventRow (Event.id event)
    (Event.source_value (Event.source event))
    (Event.category_value (Event.category event))
    (Event.action_value (Event.action event))
    (Event.subject event) (Event.target event) (Event.detail event)
    (Event.severity event)
    (Datetime.isoformat (Event.timestamp event)).

Definition alert_row (alert : Alert.Alert) : AlertRow :=
  mkAlertRow (Alert.id alert)
    (Alert.severity_value (Alert.severity alert))
    (Alert.message alert) (Alert.source alert) (Alert.detail alert)
    (if Alert.acknowledged alert then 1 else 0)
    (Datetime.isoformat <$> Alert.snoozed_until alert)
    (Datetime.isoformat (Alert.created_at alert)).

(** [insert_event]: a single [INSERT], which returns or raises
    [sqlite3.IntegrityError] ([None]).
    Modelled from the spec: the table declaration.  [schema.sql] is not part
    of the source tree; section 6 of the specification declares
    [timeline_events(id PK, ...)] and [alerts(id PK, ...)], so the [INSERT]
    of a second row with the same id is the one that raises. *)
Definition insert_event (db : Db) (event : TimelineEvent) : option Db :=
  if existsb (fun r => String.eqb (id r) (Event.id event)) (timeline_events db)
  then None
  else Some (mkDb (append (timeline_events db) (event_row event)) (alerts db)).

(** [insert_alert]: the same for the [alerts] table. *)
Definition insert_alert (db : Db) (alert : Alert.Alert) : option Db :=
  if existsb (fun r => String.eqb (alert_id r) (Alert.id alert)) (alerts db)
  then None
  else Some (mkDb (timeline_events db) (append (alerts db) (alert_row alert))).

(** Truthiness of an optional string argument ([if category:]). *)
Definition truthy_str (o : option string) : option string :=
  match o with
  | Some s => if String.eqb s "" then None else Some s
  | None => None
  end.

(** [ORDER BY timestamp DESC]: insertion of a row before the first row that
    is not greater than it (text comparison, as SQLite compares TEXT). *)
Fixpoint insert_desc (r : EventRow) (sorted : list EventRow) : list EventRow :=
  match sorted with
  | [] => [r]
  | x :: rest =>
      if String.leb (timestamp x) (timestamp r) then r :: sorted
      else x :: insert_desc r rest
  end.

Definition order_by_timestamp_desc (rows : list EventRow) : list EventRow :=
  foldr insert_desc [] rows.

(** [LIMIT ? OFFSET ?]: a negative limit means no limit, a negative offset
    means none. *)
Definition limit_offset {A} (limit offset : Z) (rows : list A) : list A :=
  let rest := drop (Z.to_nat offset) rows in
  if limit <? 0 then rest else take (Z.to_nat limit) rest.

(** [get_events]: the [clauses] list is built as in the source, one predicate
    per appended SQL clause.  [since] is the datetime the caller hands over
    ([GET /timeline] parses it from the query text and keeps its offset); the
    clause compares its [isoformat()] with the stored text. *)
Definition get_events (db : Db) (category action : option string)
    (since : option Datetime.zoned) (limit offset : Z) : list EventRow :=
  let clauses : list (EventRow -> bool) := [] in
  let clauses :=
    match truthy_str category with
    | Some c => append clauses (fun r : EventRow => String.eqb (Database.category r) c)
    | None => clauses
    end in
  let clauses :=
    match truthy_str action with
    | Some a => append clauses (fun r : EventRow => String.eqb (Database.action r) a)
    | None => clauses
    end in
  let clauses :=
    match since with
    | Some s => append clauses (fun r : EventRow => String.leb (Datetime.isoformat_zoned s) (timestamp r))
    | None => clauses
    end in
  let where_ r := forallb (fun c => c r) clauses in
  limit_offset limit offset
    (order_by_timestamp_desc (filter (fun r => where_ r = true) (timeline_events db))).

Definition get_event_by_id (db : Db) (event_id : string) : option EventRow :=
  head (filter (fun r => id r = event_id) (timeline_events db)).

Definition get_alert_by_id (db : Db) (alert_id' : string) : option AlertRow :=
  head (filter (fun r => alert_id r = alert_id') (alerts db)).

Definition set_snoozed_until (r : AlertRow) (v : option string) : AlertRow :=
  mkAlertRow (alert_id r) (alert_severity r) (message r) (alert_source r)
    (alert_detail r) (acknowledged r) v (created_at r).

(** [snooze_alert]: [UPDATE alerts SET snoozed_until = ? WHERE id = ?] and
    [cursor.rowcount > 0]. *)
Definition snooze_alert (db : Db) (alert_id' : string) (until : datetime) : Db * bool :=
  let hit r := String.eqb (alert_id r) alert_id' in
  let rowcount := length (filter (fun r => hit r = true) (alerts db)) in
  (mkDb (timeline_events db)
     (map (fun r => if hit r then set_snoozed_until r (Some (Datetime.isoformat until))
                    else r) (alerts db)),
   (0 <? rowcount)%nat).


Definition set_acknowledged (r : AlertRow) (v : Z) : AlertRow :=
  mkAlertRow (alert_id r) (alert_severity r) (message r) (alert_source r)
    (alert_detail r) v (snoozed_until r) (created_at r).

(** [acknowledge_alert]: [UPDATE alerts SET acknowledged = 1 WHERE id = ?]
    and [cursor.rowcount > 0]. *)
Definition acknowledge_alert (db : Db) (alert_id' : string) : Db * bool :=
  let hit r := String.eqb (alert_id r) alert_id' in
  let rowcount := length (filter (fun r => hit r = true) (alerts db)) in
  (mkDb (timeline_events db)
     (map (fun r => if hit r then set_acknowledged r 1 else r) (alerts db)),
   (0 <? rowcount)%nat).

(** An alert as [_row_to_dict] hands it out: the row with [acknowledged]
    turned into a boolean. *)
Record AlertDict := mkAlertDict {
  dict_id : string;
  dict_severity : string;
  dict_message : string;
  dict_source : string;
  dict_detail : gmap string value;
  dict_acknowledged : bool;
  dict_snoozed_until : option string;
  dict_created_at : string
}.

Definition _row_to_dict (r : AlertRow) : AlertDict :=
  mkAlertDict (alert_id r) (alert_severity r) (message r) (alert_source r)
    (alert_detail r) (negb (acknowledged r =? 0)) (snoozed_until r)
    (created_at r).

(** [ORDER BY created_at DESC] on alert rows. *)
Fixpoint insert_alert_desc (r : AlertRow) (sorted : list AlertRow) : list AlertRow :=
  match sorted with
  | [] => [r]
  | x :: rest =>
      if String.leb (created_at x) (created_at r) then r :: sorted
      else x :: insert_alert_desc r rest
  end.

Definition order_by_created_at_desc (rows : list AlertRow) : list AlertRow :=
  foldr insert_alert_desc [] rows.

(** [get_alerts]: the severity clause is added for a non-empty string, the
    acknowledged clause whenever the argument is not [None]. *)
Definition get_alerts (db : Db) (severity : option string)
    (acknowledged : option bool) (limit offset : Z) : list AlertDict :=
  let clauses : list (AlertRow -> bool) := [] in
  let clauses :=
    match truthy_str severity with
    | Some s => append clauses (fun r : AlertRow => String.eqb (alert_severity r) s)
    | None => clauses
    end in
  let clauses :=
    match acknowledged with
    | Some a => append clauses
                  (fun r : AlertRow =>
                     Database.acknowledged r =? (if a then 1 else 0))
    | None => clauses
    end in
  let where_ r := forallb (fun c => c r) clauses in
  map _row_to_dict
    (limit_offset limit offset
       (order_by_created_at_desc
          (filter (fun r => where_ r = true) (alerts db)))).

End Database.

(** ** agent.engine.timeline *)

Module Timeline.

Import Event.

(** [{**base, **extra}]: the entries of [extra] replace those of [base]. *)
Definition spread (base extra : gmap string value) : gmap string value :=
  extra ∪ base.

(** [Alert(severity=..., message=..., source=..., detail=...)]: [id] and
    [created_at] are the defaults drawn by the constructor. *)
Definition new_alert (id : string) (created_at : datetime)
    (severity : Alert.Severity) (message source : string)
    (detail : gmap string value) : Alert.Alert :=
  Alert.mk id severity message source detail false None created_at.

Record TimelineEngine := mk {
  _away_windows : list AwayWindow;
  _on_alert : option (Alert.Alert -> Awaited)
}.

Definition set_away_windows (self : TimelineEngine) (windows : list AwayWindow) :
    TimelineEngine :=
  mk windows (_on_alert self).

(** [_evaluate(event)].  [uuid k] is the id drawn for the alert constructed
    after [k] others and [clock] the instant the constructor reads. *)
Definition _evaluate (self : TimelineEngine) (uuid : nat -> string)
    (clock : datetime) (event : TimelineEvent) : list Alert.Alert :=
  let alerts : list Alert.Alert := [] in
  let now := timestamp event in
  let in_away :=
    if InputMonitor.truthy (_away_windows self)
    then InputMonitor._is_within_away_window now (_away_windows self)
    else false in
  (* Rule 1: file change during away window *)
  let alerts :=
    if bool_decide (action event ∈
         [FILE_CREATED; FILE_MODIFIED; FILE_DELETED; FILE_RENAMED; FILE_MOVED])
       && in_away
    then append alerts (new_alert (uuid (length alerts)) clock Alert.HIGH
           ("File " +:+ action_value (action event)
              +:+ " during away window: " +:+ target event)
           (source_value (source event))
           (<["target" := VStr (target event)]>
              (<["event_id" := VStr (id event)]> ∅)))
    else alerts in
  (* Rule 2: active input during away window *)
  let alerts :=
    if bool_decide (action event = ACTIVE_DURING_AWAY)
    then append alerts (new_alert (uuid (length alerts)) clock Alert.MEDIUM
           "Keyboard/mouse activity detected during away window"
           (source_value (source event))
           (spread (<["event_id" := VStr (id event)]> ∅) (detail event)))
    else alerts in
  (* Rule 3: failed login, anytime *)
  let alerts :=
    if bool_decide (action event = LOGIN_FAILED)
    then append alerts (new_alert (uuid (length alerts)) clock Alert.HIGH
           "Failed login attempt detected"
           (source_value (source event))
           (spread (<["event_id" := VStr (id event)]> ∅) (detail event)))
    else alerts in
  (* Rule 4: RDP during away window *)
  let alerts :=
    if bool_decide (action event = SESSION_RDP) && in_away
    then append alerts (new_alert (uuid (length alerts)) clock Alert.CRITICAL
           "Remote Desktop session during away window"
           (source_value (source event))
           (spread (<["event_id" := VStr (id event)]> ∅) (detail event)))
    else alerts in
  alerts.

(** What [logger.exception] records. *)
Inductive LogEntry :=
| FailedToPersistEvent (event_id : string)
| FailedToPersistAlert (alert_id : string)
| OnAlertCallbackFailed (alert_id : string).

(** The store, the log, the alerts the callback accepted, and whether the
    handler ended with the [BaseException] of the callback.  The store's
    [insert_event] and [insert_alert] return or raise an [Exception]. *)
Record World := mkWorld {
  db : Database.Db;
  log : list LogEntry;
  delivered : list Alert.Alert;
  raised : bool
}.

(** The [for alert in alerts] loop of [_handle_event]: a callback that
    raises an [Exception] is logged and the loop goes on; a [BaseException]
    of the callback is not caught and ends the loop and the handler. *)
Fixpoint _handle_alerts (self : TimelineEngine) (alerts : list Alert.Alert)
    (w : World) : World :=
  match alerts with
  | [] => w
  | alert :: rest =>
      let w :=
        match Database.insert_alert (db w) alert with
        | Some db' => mkWorld db' (log w) (delivered w) (raised w)
        | None =>
            mkWorld (db w) (append (log w) (FailedToPersistAlert (Alert.id alert)))
              (delivered w) (raised w)
        end in
      match _on_alert self with
      | Some on_alert =>
          match on_alert alert with
          | Returns =>
              _handle_alerts self rest
                (mkWorld (db w) (log w) (append (delivered w) alert) (raised w))
          | RaisesException =>
              _handle_alerts self rest
                (mkWorld (db w)
                   (append (log w) (OnAlertCallbackFailed (Alert.id alert)))
                   (delivered w) (raised w))
          | RaisesBaseException =>
              mkWorld (db w) (log w) (delivered w) true
          end
      | None => _handle_alerts self rest w
      end
  end.

(** [_handle_event(event)]: persist, evaluate, persist and hand over each
    alert; every failure that is an [Exception] is logged and the next step
    still runs. *)
Definition _handle_event (self : TimelineEngine) (uuid : nat -> string)
    (clock : datetime) (event : TimelineEvent) (w : World) : World :=
  let w :=
    match Database.insert_event (db w) event with
    | Some db' => mkWorld db' (log w) (delivered w) (raised w)
    | None =>
        mkWorld (db w) (append (log w) (FailedToPersistEvent (id event)))
          (delivered w) (raised w)
    end in
  let alerts := _evaluate self uuid clock event in
  _handle_alerts self alerts w.

End Timeline.

(** ** agent.monitors.session_monitor *)

Module SessionMonitor.

Import Event.

Definition _SECURITY_EVENTS : gmap Z EventAction :=
  <[4624 := SESSION_LOGON]> (<[4625 := LOGIN_FAILED]>
    (<[4800 := SESSION_LOCK]> (<[4801 := SESSION_UNLOCK]> ∅))).

Definition _SYSTEM_EVENTS : gmap Z EventAction :=
  <[1 := SYSTEM_WAKE]> (<[42 := SYSTEM_SLEEP]> (<[107 := SYSTEM_WAKE]> ∅)).

Definition _RDP_EVENTS : gmap Z EventAction :=
  <[21 := SESSION_RDP]> (<[23 := SESSION_LOGOFF]>
    (<[24 := SESSION_RDP]> (<[25 := SESSION_RDP]> ∅))).

(** A record as the readers return it: a dict with key [event_id] and,
    optionally, [timestamp], [source] and [message]. *)
Record Raw := mkRaw {
  event_id : Z;
  raw_timestamp : option datetime;
  raw_source : option string;
  raw_message : option string
}.

(** An entry of the native event log. *)
Record NativeRecord := mkNative {
  EventID : Z;
  TimeGenerated : datetime;
  SourceName : string;
  FormattedMessage : string
}.

(** The host as [_read_events_blocking] sees it: the platform, whether
    [win32evtlog] imports, and for each log the batches that successive
    [ReadEventLog] calls return (newest record first). *)
Record Host := mkHost {
  is_windows : bool;
  has_pywin32 : bool;
  ReadEventLog : string -> list (list NativeRecord)
}.

Definition ReadLogFn : Type :=
  string -> option string -> gset Z -> datetime -> list Raw.

(** The [for ev in events] loop of the native reader; [inr] is the early
    [return results], [inl] the end of the batch. *)
Fixpoint read_batch (event_ids : gset Z) (since : datetime)
    (events : list NativeRecord) (results : list Raw) : list Raw + list Raw :=
  match events with
  | [] => inl results
  | ev :: rest =>
      let ev_time := TimeGenerated ev in
      if Datetime.leb ev_time since then inr results
      else if bool_decide (Z.land (EventID ev) 65535 ∈ event_ids)
      then read_batch event_ids since rest
             (append results (mkRaw (Z.land (EventID ev) 65535) (Some ev_time)
                (Some (SourceName ev)) (Some (FormattedMessage ev))))
      else read_batch event_ids since rest results
  end.

(** The [while True] loop over the batches; an empty batch ends it. *)
Fixpoint read_batches (event_ids : gset Z) (since : datetime)
    (batches : list (list NativeRecord)) (results : list Raw) : list Raw :=
  match batches with
  | [] => results
  | [] :: _ => results
  | events :: more =>
      match read_batch event_ids since events results with
      | inr results => results
      | inl results => read_batches event_ids since more results
      end
  end.

Definition _read_events_blocking (host : Host) (log_type : string)
    (source : option string) (event_ids : gset Z) (since : datetime)
    (read_log_fn : option ReadLogFn) : list Raw :=
  match read_log_fn with
  | Some fn => fn log_type source event_ids since
  | None =>
      if negb (is_windows host) then []
      else if negb (has_pywin32 host) then []
      else read_batches event_ids since (ReadEventLog host log_type) []
  end.

Record SessionMonitor := mk {
  _read_log_fn : option ReadLogFn;
  _last_read_time : datetime
}.

Definition _fetch_all (host : Host) (self : SessionMonitor) (since : datetime) :
    list Raw :=
  let security :=
    _read_events_blocking host "Security" None (dom _SECURITY_EVENTS) since
      (_read_log_fn self) in
  let system :=
    _read_events_blocking host "System" None (dom _SYSTEM_EVENTS) since
      (_read_log_fn self) in
  let rdp :=
    _read_events_blocking host
      "Microsoft-Windows-TerminalServices-LocalSessionManager/Operational"
      None (dom _RDP_EVENTS) since (_read_log_fn self) in
  (security ++ system ++ rdp)%list.

(** [a or b] on optional actions (every action is a non-empty string). *)
Definition or_else (a b : option EventAction) : option EventAction :=
  match a with Some _ => a | None => b end.

(** The [for raw in events] loop of [_poll_loop]; [k] counts the events
    constructed so far, the result is what is handed to [bus.publish]. *)
Fixpoint publish_all (uuid : nat -> string) (now : datetime) (k : nat)
    (events : list Raw) : list TimelineEvent :=
  match events with
  | [] => []
  | raw :: rest =>
      let eid := event_id raw in
      let action :=
        or_else (_SECURITY_EVENTS !! eid)
          (or_else (_SYSTEM_EVENTS !! eid) (_RDP_EVENTS !! eid)) in
      match action with
      | None => publish_all uuid now k rest
      | Some action =>
          let severity := "INFO" in
          let severity :=
            if bool_decide (action = LOGIN_FAILED) then "HIGH"
            else if bool_decide (action = SESSION_RDP) then "MEDIUM"
            else severity in
          let te :=
            Event.mk (uuid k) SESSION_MONITOR
              (if negb (bool_decide (action ∈ [SYSTEM_WAKE; SYSTEM_SLEEP]))
               then SESSION else SYSTEM)
              action "" ""
              (<["message" := VStr (default "" (raw_message raw))]>
                 (<["source" := VStr (default "" (raw_source raw))]>
                    (<["event_id" := VInt eid]> ∅)))
              severity
              (default now (raw_timestamp raw)) in
          te :: publish_all uuid now (S k) rest
      end
  end.

(** One pass through the body of [while self._running] in [_poll_loop],
    with [now] the instant read at its start. *)
Definition _poll_cycle (host : Host) (self : SessionMonitor)
    (uuid : nat -> string) (now : datetime) :
    SessionMonitor * list TimelineEvent :=
  let since := _last_read_time self in
  let events := _fetch_all host self since in
  let published := publish_all uuid now 0 events in
  (mk (_read_log_fn self) now, published).

End SessionMonitor.

(** ** agent.alerts.email_notifier *)

Module EmailNotifier.

Record EmailConfig := mkConfig {
  smtp_host : string;
  smtp_port : Z;
  sender_address : string;
  sender_password : string;
  recipient_address : string;
  throttle_minutes : Z
}.

(** The [MIMEText] message: its three headers and its payload. *)
Record Message := mkMessage {
  Subject : string;
  From : string;
  To : string;
  body : string
}.

Record EmailNotifier := mk {
  _config : EmailConfig;
  _last_sent : option datetime;
  _pending : list Alert.Alert
}.

(** [timedelta(minutes=config.throttle_minutes)], in microseconds. *)
Definition _throttle (self : EmailNotifier) : Z :=
  throttle_minutes (_config self) * 60 * 1000000.

Definition nl : string := String (ascii_of_nat 10) "".

Definition body_part (a : Alert.Alert) : string :=
  "[" +:+ Alert.severity_value (Alert.severity a) +:+ "] " +:+ Alert.message a +:+ nl
  +:+ "  Source: " +:+ Alert.source a +:+ nl
  +:+ "  Time: " +:+ Datetime.isoformat (Alert.created_at a) +:+ nl.

(** [sep.join(parts)]. *)
Fixpoint join (sep : string) (parts : list string) : string :=
  match parts with
  | [] => ""
  | [p] => p
  | p :: rest => p +:+ sep +:+ join sep rest
  end.

(** The message [_send_batch] builds from a snapshot whose first alert is
    [first]. *)
Definition build_message (config : EmailConfig) (first : Alert.Alert)
    (alerts : list Alert.Alert) : Message :=
  let subject :=
    "PIDA: " +:+ pretty (length alerts) +:+ " alert(s) — highest: "
    +:+ Alert.severity_value (Alert.severity first) in
  let body_parts := map body_part alerts in
  mkMessage subject (sender_address config) (recipient_address config)
    (join nl body_parts).

(** [_send_batch] up to [await asyncio.to_thread(self._send_smtp, msg)]:
    [None] is the early [return] on an empty [_pending]; otherwise the notifier
    with [_pending] cleared, the snapshot and the message. *)
Definition _send_batch_begin (self : EmailNotifier) :
    option (EmailNotifier * list Alert.Alert * Message) :=
  match _pending self with
  | [] => None
  | first :: _ =>
      let alerts := _pending self in
      Some (mk (_config self) (_last_sent self) [],
            alerts,
            build_message (_config self) first alerts)
  end.

(** [_send_batch] from the point where the await completes.  [self] is the
    notifier as the coroutine finds it then, [sent] tells whether
    [_send_smtp] returned or raised, [now] is the instant read on success. *)
Definition _send_batch_resume (self : EmailNotifier) (alerts : list Alert.Alert)
    (sent : bool) (now : datetime) : EmailNotifier :=
  if sent then mk (_config self) (Some now) (_pending self)
  else mk (_config self) (_last_sent self) (extend (_pending self) alerts).

(** [_send_batch] when other tasks run while it awaits the transport:
    [during] is what they do to the notifier in the meantime, [smtp] tells
    for each message whether the transport delivers it. *)
Definition _send_batch_with (smtp : Message -> bool)
    (during : EmailNotifier -> EmailNotifier) (self : EmailNotifier)
    (now : datetime) : EmailNotifier :=
  match _send_batch_begin self with
  | None => self
  | Some (self', alerts, msg) =>
      _send_batch_resume (during self') alerts (smtp msg) now
  end.

(** [_send_batch] with no other task in between. *)
Definition _send_batch (smtp : Message -> bool) (self : EmailNotifier)
    (now : datetime) : EmailNotifier :=
  _send_batch_with smtp (fun s => s) self now.

(** [notify(alert)]: [now] is read after the append, [sent_at] is the instant
    [_send_batch] reads if it sends. *)
Definition notify (smtp : Message -> bool) (self : EmailNotifier)
    (alert : Alert.Alert) (now sent_at : datetime) : EmailNotifier :=
  let self := mk (_config self) (_last_sent self) (append (_pending self) alert) in
  match _last_sent self with
  | Some last_sent =>
      if Datetime.to_micros now - Datetime.to_micros last_sent <? _throttle self
      then self
      else _send_batch smtp self sent_at
  | None => _send_batch smtp self sent_at
  end.

(** [flush()], with [during] as in [_send_batch_with]. *)
Definition flush_with (smtp : Message -> bool)
    (during : EmailNotifier -> EmailNotifier) (self : EmailNotifier)
    (now : datetime) : EmailNotifier :=
  if InputMonitor.truthy (_pending self)
  then _send_batch_with smtp during self now
  else self.

Definition flush (smtp : Message -> bool) (self : EmailNotifier)
    (now : datetime) : EmailNotifier :=
  flush_with smtp (fun s => s) self now.


(** A run of [notify] calls, one after the other: each arrival is the alert,
    the instant [notify] reads and the instant a send would read. *)
Fixpoint notify_each (smtp : Message -> bool) (self : EmailNotifier)
    (arrivals : list (Alert.Alert * datetime * datetime)) : EmailNotifier :=
  match arrivals with
  | [] => self
  | (alert, now, sent_at) :: rest =>
      notify_each smtp (notify smtp self alert now sent_at) rest
  end.

End EmailNotifier.

(** ** agent.alerts.dispatcher *)

Module Dispatcher.

(** A notifier is an opaque coroutine function: the model keeps its name and
    which of the two outcomes that [dispatch] tells apart it has on a given
    alert: it returns ([true]) or it raises an [Exception] ([false]), which
    the [except Exception] of [dispatch] catches and logs.  A notifier that
    ends with a [BaseException] (the cancellation of the task) is not a
    notifier of this model. *)
Record Notifier := mkNotifier {
  name : string;
  run : Alert.Alert -> bool
}.

Record AlertDispatcher := mk {
  _routes : list (Alert.Severity * Notifier)
}.

(** [AlertDispatcher()]. *)
Definition new : AlertDispatcher := mk [].

Definition add_route (self : AlertDispatcher) (min_severity : Alert.Severity)
    (notifier : Notifier) : AlertDispatcher :=
  mk (append (_routes self) (min_severity, notifier)).

(** The notifiers awaited, in order, and the failures logged (notifier and
    alert id). *)
Record Trace := mkTrace {
  invoked : list string;
  failures : list (string * string)
}.

(** The [for min_sev, notifier in self._routes] loop. *)
Fixpoint dispatch_routes (routes : list (Alert.Severity * Notifier))
    (alert : Alert.Alert) (alert_level : Z) (t : Trace) : Trace :=
  match routes with
  | [] => t
  | (min_sev, notifier) :: rest =>
      let threshold := Alert.SEVERITY_ORDER min_sev in
      let t :=
        if threshold <=? alert_level then
          if run notifier alert
          then mkTrace (append (invoked t) (name notifier)) (failures t)
          else mkTrace (append (invoked t) (name notifier))
                 (append (failures t) (name notifier, Alert.id alert))
        else t in
      dispatch_routes rest alert alert_level t
  end.

(** [dispatch(alert)]. *)
Definition dispatch (self : AlertDispatcher) (alert : Alert.Alert) : Trace :=
  let alert_level := Alert.SEVERITY_ORDER (Alert.severity alert) in
  dispatch_routes (_routes self) alert alert_level (mkTrace [] []).

End Dispatcher.

(** ** agent.alerts.log_notifier *)

Module LogNotifier.

(** The numeric levels of [logging]. *)
Definition INFO : Z := 20.
Definition WARNING : Z := 30.
Definition ERROR : Z := 40.
Definition CRITICAL : Z := 50.

(** The dictionary of [log_notify], keyed by the severity's value. *)
Definition levels : gmap string Z :=
  <["INFO" := INFO]> (<["LOW" := INFO]> (<["MEDIUM" := WARNING]>
    (<["HIGH" := ERROR]> (<["CRITICAL" := CRITICAL]> ∅)))).

(** [log_notify(alert)]: the level and the formatted record. *)
Definition log_notify (alert : Alert.Alert) : Z * string :=
  let level :=
    default INFO (levels !! Alert.severity_value (Alert.severity alert)) in
  (level,
   "[" +:+ Alert.severity_value (Alert.severity alert) +:+ "] "
   +:+ Alert.message alert +:+ " (source=" +:+ Alert.source alert +:+ ")").

End LogNotifier.

(** ** agent.monitors.folder_monitor *)

Module FolderMonitor.

Import Event.

Definition _ACTION_MAP : gmap string EventAction :=
  <["created" := FILE_CREATED]> (<["modified" := FILE_MODIFIED]>
    (<["deleted" := FILE_DELETED]> ∅)).

(** The fields of [FolderMonitor] the model follows: [_loop_running] stands
    for [self._loop and self._loop.is_running()], [scheduled] for the
    [observer.schedule] calls made so far. *)
Record FolderMonitor := mk {
  _folders : list string;
  _recursive : bool;
  _running : bool;
  _loop_running : bool;
  _bridge_queue : list TimelineEvent;
  scheduled : list (string * bool)
}.

(** [FolderMonitor(bus, folders, recursive)]. *)
Definition new (folders : list string) (recursive : bool) : FolderMonitor :=
  mk folders recursive false false [] [].

(** [start()]: nothing happens on a running monitor or without folders. *)
Definition start (self : FolderMonitor) : FolderMonitor :=
  if _running self then self
  else if negb (InputMonitor.truthy (_folders self)) then self
  else mk (_folders self) (_recursive self) true true (_bridge_queue self)
         (extend (scheduled self)
            (map (fun folder => (folder, _recursive self)) (_folders self))).

(** [_enqueue(event)]: the event is dropped when the loop is not running. *)
Definition _enqueue (self : FolderMonitor) (event : TimelineEvent) : FolderMonitor :=
  if _loop_running self
  then mk (_folders self) (_recursive self) (_running self) (_loop_running self)
         (append (_bridge_queue self) event) (scheduled self)
  else self.

(** [_bridge(action_key, path)]; [eid] and [stamp] are the defaults the
    event constructor draws. *)
Definition _bridge (self : FolderMonitor) (action_key path : string)
    (eid : string) (stamp : datetime) : FolderMonitor :=
  match _ACTION_MAP !! action_key with
  | None => self
  | Some action =>
      let te :=
        Event.mk eid FOLDER_MONITOR FILE_SYSTEM action "" path ∅ "INFO" stamp in
      _enqueue self te
  end.

(** A watchdog event, as far as the handlers read it. *)
Record FsEvent := mkFsEvent {
  is_directory : bool;
  src_path : string;
  dest_path : string
}.

Definition on_created (self : FolderMonitor) (event : FsEvent) (eid : string)
    (stamp : datetime) : FolderMonitor :=
  if negb (is_directory event) then _bridge self "created" (src_path event) eid stamp
  else self.

Definition on_modified (self : FolderMonitor) (event : FsEvent) (eid : string)
    (stamp : datetime) : FolderMonitor :=
  if negb (is_directory event) then _bridge self "modified" (src_path event) eid stamp
  else self.

Definition on_deleted (self : FolderMonitor) (event : FsEvent) (eid : string)
    (stamp : datetime) : FolderMonitor :=
  if negb (is_directory event) then _bridge self "deleted" (src_path event) eid stamp
  else self.

(** [on_moved]; [parent] is [Path(p).parent], rendered as a string. *)
Definition on_moved (parent : string -> string) (self : FolderMonitor)
    (event : FsEvent) (eid : string) (stamp : datetime) : FolderMonitor :=
  if negb (is_directory event) then
    let src := src_path event in
    let dest := dest_path event in
    let action :=
      if String.eqb (parent src) (parent dest) then FILE_RENAMED else FILE_MOVED in
    let te :=
      Event.mk eid FOLDER_MONITOR FILE_SYSTEM action "" (dest_path event)
        (<["dest_path" := VStr (dest_path event)]>
           (<["src_path" := VStr (src_path event)]> ∅))
        "INFO" stamp in
    _enqueue self te
  else self.

(** One iteration of [_drain_loop] that finds an event in the bridge queue:
    the event leaves the queue and goes to [bus.publish]. *)
Definition _drain_step (self : FolderMonitor) (bus : EventBus.EventBus) :
    option (FolderMonitor * EventBus.outcome EventBus.EventBus) :=
  if _running self then
    match _bridge_queue self with
    | [] => None
    | event :: rest =>
        Some (mk (_folders self) (_recursive self) (_running self)
                (_loop_running self) rest (scheduled self),
              EventBus.publish bus event)
    end
  else None.

End FolderMonitor.

(** * Vocabulary of the specification *)

Module Spec.

(** Minute of the day at which a window starts and ends, and the minute of
    the day of an instant. *)
Definition window_start (w : AwayWindow) : Z :=
  Config.start_hour w * 60 + Config.start_minute w.

Definition window_end (w : AwayWindow) : Z :=
  Config.end_hour w * 60 + Config.end_minute w.

Definition minute_of_day (t : datetime) : Z :=
  Datetime.hour t * 60 + Datetime.minute t.

(** An instant is inside a window when the membership test accepts the
    one-window list. *)
Definition inside (w : AwayWindow) (t : datetime) : bool :=
  InputMonitor._is_within_away_window t [w].

(** Some enabled window of the list covers the instant. *)
Definition enabled_window_covers (t : datetime) (windows : list AwayWindow) : bool :=
  existsb (fun w => Config.enabled w && inside w t) windows.

(** The events a sample of an active user may publish. *)
Definition active_during_away_event (self : InputMonitor.InputMonitor) (idle : float)
    (eid : string) (stamp : datetime) : TimelineEvent :=
  Event.mk eid Event.INPUT_MONITOR Event.USER_INPUT Event.ACTIVE_DURING_AWAY "" ""
    (<["streak_seconds" :=
         VFloat (PrimFloat.add (InputMonitor._active_streak self) (InputMonitor._poll_interval self))]>
       (<["idle_seconds" := VFloat idle]> ∅))
    "MEDIUM" stamp.

Definition input_detected_event (idle : float) (eid : string) (stamp : datetime) :
    TimelineEvent :=
  Event.mk eid Event.INPUT_MONITOR Event.USER_INPUT Event.INPUT_DETECTED "" ""
    (<["idle_seconds" := VFloat idle]> ∅) "INFO" stamp.

Definition idle_started_event (self : InputMonitor.InputMonitor) (eid : string)
    (stamp : datetime) : TimelineEvent :=
  Event.mk eid Event.INPUT_MONITOR Event.USER_INPUT Event.IDLE_STARTED "" ""
    (<["last_active_streak" := VFloat (InputMonitor._active_streak self)]> ∅) "INFO" stamp.


(** The four correlation rules of the engine, as the specification lists
    them. *)
Inductive Rule := R1 | R2 | R3 | R4.

(** [in_away(t)] as the specification defines it: some enabled away window
    of the list covers [t] (a disabled window is ignored); false on the empty
    list. *)
Definition in_away (t : datetime) (windows : list AwayWindow) : bool :=
  enabled_window_covers t windows.

Definition is_file_action (a : EventAction) : bool :=
  match a with
  | Event.FILE_CREATED | Event.FILE_MODIFIED | Event.FILE_DELETED
  | Event.FILE_RENAMED | Event.FILE_MOVED => true
  | _ => false
  end.

Definition rule_condition (event : TimelineEvent) (windows : list AwayWindow)
    (r : Rule) : bool :=
  match r with
  | R1 => is_file_action (Event.action event)
          && in_away (Event.timestamp event) windows
  | R2 => bool_decide (Event.action event = Event.ACTIVE_DURING_AWAY)
  | R3 => bool_decide (Event.action event = Event.LOGIN_FAILED)
  | R4 => bool_decide (Event.action event = Event.SESSION_RDP)
          && in_away (Event.timestamp event) windows
  end.

Definition rule_severity (r : Rule) : Alert.Severity :=
  match r with
  | R1 => Alert.HIGH
  | R2 => Alert.MEDIUM
  | R3 => Alert.HIGH
  | R4 => Alert.CRITICAL
  end.

Definition rule_message (event : TimelineEvent) (r : Rule) : string :=
  match r with
  | R1 => "File " +:+ Event.action_value (Event.action event)
          +:+ " during away window: " +:+ Event.target event
  | R2 => "Keyboard/mouse activity detected during away window"
  | R3 => "Failed login attempt detected"
  | R4 => "Remote Desktop session during away window"
  end.

(** The rules whose condition holds on the event, in rule order. *)
Definition fired_rules (event : TimelineEvent) (windows : list AwayWindow) :
    list Rule :=
  List.filter (rule_condition event windows) [R1; R2; R3; R4].





(** A record returned by a reader is newer than [since]. *)
Definition is_newer (since : datetime) (raw : SessionMonitor.Raw) : bool :=
  match SessionMonitor.raw_timestamp raw with
  | Some ts => Datetime.ltb since ts
  | None => false
  end.


(** A route of the dispatcher fires for an alert: the rank of its minimum
    severity is at most the rank of the alert's severity. *)
Definition route_fires (alert : Alert.Alert)
    (route : Alert.Severity * Dispatcher.Notifier) : bool :=
  Alert.SEVERITY_ORDER route.1 <=? Alert.SEVERITY_ORDER (Alert.severity alert).

Definition route_name (route : Alert.Severity * Dispatcher.Notifier) : string :=
  Dispatcher.name route.2.

(** The actions that can raise an alert at all. *)
Definition alerting_action (a : EventAction) : bool :=
  is_file_action a
  || bool_decide (a = Event.ACTIVE_DURING_AWAY)
  || bool_decide (a = Event.LOGIN_FAILED)
  || bool_decide (a = Event.SESSION_RDP).

(** The action the session producer's three tables give an event id. *)
Definition session_action (eid : Z) : option EventAction :=
  SessionMonitor.or_else (SessionMonitor._SECURITY_EVENTS !! eid)
    (SessionMonitor.or_else (SessionMonitor._SYSTEM_EVENTS !! eid)
       (SessionMonitor._RDP_EVENTS !! eid)).

(** Rows in descending order of a text column. *)
Fixpoint descending (keys : list string) : Prop :=
  match keys with
  | [] => True
  | k :: rest => Forall (fun k' => String.leb k' k = true) rest ∧ descending rest
  end.


(** The four watchdog callbacks of the folder producer. *)
Inductive Watch := Created | Modified | Deleted | Moved.

Definition folder_handler (parent : string -> string) (kind : Watch) :
    FolderMonitor.FolderMonitor -> FolderMonitor.FsEvent -> string -> datetime ->
    FolderMonitor.FolderMonitor :=
  match kind with
  | Created => FolderMonitor.on_created
  | Modified => FolderMonitor.on_modified
  | Deleted => FolderMonitor.on_deleted
  | Moved => FolderMonitor.on_moved parent
  end.

(** The action a callback gives the event it enqueues. *)
Definition watch_action (parent : string -> string) (kind : Watch)
    (event : FolderMonitor.FsEvent) : EventAction :=
  match kind with
  | Created => Event.FILE_CREATED
  | Modified => Event.FILE_MODIFIED
  | Deleted => Event.FILE_DELETED
  | Moved =>
      if String.eqb (parent (FolderMonitor.src_path event))
           (parent (FolderMonitor.dest_path event))
      then Event.FILE_RENAMED else Event.FILE_MOVED
  end.

(** The path a callback reports as the target. *)
Definition watch_target (kind : Watch) (event : FolderMonitor.FsEvent) : string :=
  match kind with
  | Moved => FolderMonitor.dest_path event
  | _ => FolderMonitor.src_path event
  end.

End Spec.

(** * Sample data *)

Module Sample.

(** Monday 2024-01-01, 12:00 UTC. *)
Definition monday_noon : datetime := Datetime.mk 2024 1 1 12 0 0 0.

Definition all_days : list Z := [0; 1; 2; 3; 4; 5; 6].

(** 09:00 to 17:00 on every day. *)
Definition office_hours : AwayWindow :=
  Config.mk "w1" "office" 9 0 17 0 all_days true.

(** 00:00 to 23:59 on every day, switched off. *)
Definition disabled_all_day : AwayWindow :=
  Config.mk "w2" "off" 0 0 23 59 all_days false.

(** An input monitor polling every 5 s with a 10 s threshold, 5 s into a
    streak, whose only away window is switched off. *)
Definition monitor_disabled_window : InputMonitor.InputMonitor :=
  InputMonitor.mk 5%float [disabled_all_day] 10%float 5%float.

(** The same monitor with the window switched on. *)
Definition monitor_office : InputMonitor.InputMonitor :=
  InputMonitor.mk 5%float [office_hours] 10%float 5%float.


(** The id source of the sample runs: ["id-"] followed by the counter. *)
Definition uuid (k : nat) : string := "id-" +:+ pretty k.

(** A failed logon (Windows event 4625) as a reader returns it, stamped
    12:00:30. *)
Definition failed_logon : SessionMonitor.Raw :=
  SessionMonitor.mkRaw 4625 (Some (Datetime.mk 2024 1 1 12 0 30 0))
    (Some "Security") (Some "failed").

(** The reader of the test suite: the given records, filtered by event id
    and by [timestamp > since]. *)
Definition _make_read_fn (events : list SessionMonitor.Raw) :
    SessionMonitor.ReadLogFn :=
  fun log_type source event_ids since =>
    List.filter
      (fun e => bool_decide (SessionMonitor.event_id e ∈ event_ids)
                && match SessionMonitor.raw_timestamp e with
                   | Some ts => Datetime.ltb since ts
                   | None => false
                   end)
      events.

Definition linux_host : SessionMonitor.Host :=
  SessionMonitor.mkHost false false (fun _ => []).

(** A session monitor started at 12:00:00 that reads through
    [_make_read_fn [failed_logon]]. *)
Definition session_monitor : SessionMonitor.SessionMonitor :=
  SessionMonitor.mk (Some (_make_read_fn [failed_logon])) monday_noon.

(** The event the session monitor publishes for [failed_logon] in the cycle
    that starts at 12:00:10. *)
Definition login_failed_event : TimelineEvent :=
  Event.mk "id-0" Event.SESSION_MONITOR Event.SESSION Event.LOGIN_FAILED "" ""
    (<["message" := VStr "failed"]>
       (<["source" := VStr "Security"]> (<["event_id" := VInt 4625]> ∅)))
    "HIGH" (Datetime.mk 2024 1 1 12 0 30 0).

Definition engine : Timeline.TimelineEngine := Timeline.mk [] None.

Definition empty_world : Timeline.World :=
  Timeline.mkWorld Database.empty [] [] false.


(** A bus bounded to one event that already holds one. *)
Definition full_bus : EventBus.EventBus :=
  EventBus.mk (EventBus.mkQueue 1 [login_failed_event]) [] true.

(** An unbounded bus that holds one event. *)
Definition unbounded_bus : EventBus.EventBus :=
  EventBus.mk (EventBus.mkQueue 0 [login_failed_event]) [] true.

(** A HIGH alert created at 12:00:31 and the store that holds only it. *)
Definition alert_a1 : Alert.Alert :=
  Timeline.new_alert "a1" (Datetime.mk 2024 1 1 12 0 31 0) Alert.HIGH
    "Failed login attempt detected" "session_monitor" ∅.

Definition db_a1 : Database.Db :=
  Database.mkDb [] [Database.alert_row alert_a1].

Definition jan_1st : datetime := Datetime.mk 2024 1 1 13 0 0 0.
Definition jan_2nd : datetime := Datetime.mk 2024 1 2 13 0 0 0.

(** A store with three events: one before, one at and one after 12:00:30. *)
Definition event_at (eid : string) (ts : datetime) : TimelineEvent :=
  Event.mk eid Event.FOLDER_MONITOR Event.FILE_SYSTEM Event.FILE_CREATED
    "" "/tmp/test.txt" ∅ "INFO" ts.

Definition db_three_events : Database.Db :=
  Database.mkDb
    [Database.event_row (event_at "e-before" monday_noon);
     Database.event_row login_failed_event;
     Database.event_row (event_at "e-after" jan_1st)]
    [].



(** A file created and a Remote Desktop session, both Monday at noon. *)
Definition file_event : TimelineEvent := event_at "e-noon" monday_noon.

Definition rdp_event : TimelineEvent :=
  Event.mk "e-rdp" Event.SESSION_MONITOR Event.SESSION Event.SESSION_RDP "" ""
    ∅ "HIGH" monday_noon.


(** A logon stamped 11:00:00, an hour before the sample monitors start, and
    a reader that returns it for the Security log whatever [since] is. *)
Definition stale_logon : SessionMonitor.Raw :=
  SessionMonitor.mkRaw 4624 (Some (Datetime.mk 2024 1 1 11 0 0 0))
    (Some "Security") (Some "logon").

Definition stale_reader : SessionMonitor.ReadLogFn :=
  fun log_type source event_ids since =>
    if String.eqb log_type "Security" then [stale_logon] else [].

Definition stale_monitor : SessionMonitor.SessionMonitor :=
  SessionMonitor.mk (Some stale_reader) monday_noon.

(** A Windows host whose Security log holds, newest first, a failed logon
    stamped 12:00:11, an unrelated record and a logon stamped 11:00:00. *)
Definition windows_host : SessionMonitor.Host :=
  SessionMonitor.mkHost true true
    (fun log_type =>
       if String.eqb log_type "Security"
       then [[SessionMonitor.mkNative 4625 (Datetime.mk 2024 1 1 12 0 11 0)
                "Security" "failed";
              SessionMonitor.mkNative 5000 (Datetime.mk 2024 1 1 12 0 5 0)
                "Security" "other"];
             [SessionMonitor.mkNative 4624 (Datetime.mk 2024 1 1 11 0 0 0)
                "Security" "logon"]]
       else []).

(** A session monitor started at 12:00:00 that reads the native log. *)
Definition native_monitor : SessionMonitor.SessionMonitor :=
  SessionMonitor.mk None monday_noon.

(** The event published for the failed logon of [windows_host]. *)
Definition native_login_failed_event : TimelineEvent :=
  Event.mk "id-0" Event.SESSION_MONITOR Event.SESSION Event.LOGIN_FAILED "" ""
    (<["message" := VStr "failed"]>
       (<["source" := VStr "Security"]> (<["event_id" := VInt 4625]> ∅)))
    "HIGH" (Datetime.mk 2024 1 1 12 0 11 0).

(** An email notifier that sent its last message at 12:00:00, throttles for
    five minutes and holds two alerts; a transport that is down. *)
Definition email_config : EmailNotifier.EmailConfig :=
  EmailNotifier.mkConfig "localhost" 587 "pida@test.com" "pass" "user@test.com" 5.

Definition alert_a2 : Alert.Alert :=
  Timeline.new_alert "a2" (Datetime.mk 2024 1 1 12 0 40 0) Alert.CRITICAL
    "Remote Desktop session during away window" "session_monitor" ∅.

Definition alert_b : Alert.Alert :=
  Timeline.new_alert "b" (Datetime.mk 2024 1 1 12 1 0 0) Alert.HIGH
    "Failed login attempt detected" "session_monitor" ∅.

Definition notifier : EmailNotifier.EmailNotifier :=
  EmailNotifier.mk email_config (Some monday_noon) [alert_a1; alert_a2].

Definition smtp_down : EmailNotifier.Message -> bool := fun _ => false.

Definition smtp_up : EmailNotifier.Message -> bool := fun _ => true.

(** What a concurrent [notify(alert_b)] at 12:01:00 does to the notifier. *)
Definition concurrent_notify (s : EmailNotifier.EmailNotifier) :
    EmailNotifier.EmailNotifier :=
  EmailNotifier.notify smtp_down s alert_b (Datetime.mk 2024 1 1 12 1 0 0)
    (Datetime.mk 2024 1 1 12 1 0 0).


(** A dispatcher with a log route from INFO, a toast route from MEDIUM whose
    notifier always raises, and an email route from HIGH. *)
Definition dispatcher : Dispatcher.AlertDispatcher :=
  Dispatcher.add_route
    (Dispatcher.add_route
       (Dispatcher.add_route Dispatcher.new Alert.INFO
          (Dispatcher.mkNotifier "log" (fun _ => true)))
       Alert.MEDIUM (Dispatcher.mkNotifier "toast" (fun _ => false)))
    Alert.HIGH (Dispatcher.mkNotifier "email" (fun _ => true)).

Definition alert_medium : Alert.Alert :=
  Timeline.new_alert "m" (Datetime.mk 2024 1 1 12 0 50 0) Alert.MEDIUM
    "Keyboard/mouse activity detected during away window" "input_monitor" ∅.


(** A running, unbounded bus with the engine and a WebSocket forwarder
    subscribed and two events queued; a forwarder that raises an
    [Exception] on every event, and an engine whose task is cancelled while
    it handles the first event. *)
Definition busy_bus : EventBus.EventBus :=
  EventBus.mk
    (EventBus.mkQueue 0 [login_failed_event; event_at "e-after" jan_1st])
    ["engine"; "ws_forward"] true.

Definition ws_forward_fails (sub : string) (event : TimelineEvent) : Awaited :=
  if String.eqb sub "ws_forward" then RaisesException else Returns.

Definition engine_cancelled (sub : string) (event : TimelineEvent) : Awaited :=
  if String.eqb sub "engine" && String.eqb (Event.id event) "id-0"
  then RaisesBaseException else Returns.

(** The same bus with the forwarder subscribed twice. *)
Definition noisy_bus : EventBus.EventBus :=
  EventBus.mk
    (EventBus.mkQueue 0 [login_failed_event; event_at "e-after" jan_1st])
    ["ws_forward"; "engine"; "ws_forward"] true.


(** An engine that is always away, with a callback that raises an
    [Exception] on CRITICAL alerts. *)
Definition always_away : AwayWindow :=
  Config.mk "w3" "always" 0 0 23 59 all_days true.

Definition away_engine : Timeline.TimelineEngine :=
  Timeline.mk [always_away]
    (Some (fun a => if bool_decide (Alert.severity a = Alert.CRITICAL)
                    then RaisesException else Returns)).

(** A started folder monitor and a rename inside [/docs]. *)
Definition folder_monitor : FolderMonitor.FolderMonitor :=
  FolderMonitor.start (FolderMonitor.new ["/docs"] true).

Definition rename_event : FolderMonitor.FsEvent :=
  FolderMonitor.mkFsEvent false "/docs/a.txt" "/docs/b.txt".

(** A stand-in for [Path(p).parent] that is right for the two sample
    paths. *)
Definition docs_parent (p : string) : string := "/docs".


(** Two readings of an idle user and one of an active user. *)
Definition idle_reading (eid : string) : InputMonitor.Reading :=
  InputMonitor.mkReading 60%float monday_noon eid monday_noon.

Definition active_reading (eid : string) : InputMonitor.Reading :=
  InputMonitor.mkReading 1%float monday_noon eid monday_noon.

End Sample.

(** * The calendar *)

Example weekday_of_monday : Datetime.weekday Sample.monday_noon = 0.
Proof. reflexivity. Qed.

Example weekday_of_leap_day : Datetime.weekday (Datetime.mk 2024 2 29 0 0 0 0) = 3.
Proof. reflexivity. Qed.

Example isoformat_whole_second :
  Datetime.isoformat (Datetime.mk 2024 1 1 9 5 0 0) = "2024-01-01T09:05:00+00:00".
Proof. reflexivity. Qed.

Example isoformat_microseconds :
  Datetime.isoformat (Datetime.mk 2024 12 31 23 59 58 500)
  = "2024-12-31T23:59:58.000500+00:00".
Proof. reflexivity. Qed.

(** * Away windows *)

Section AwayWindows.

Import InputMonitor Spec.

Lemma within_nil (t : datetime) : _is_within_away_window t [] = false.
Proof. reflexivity. Qed.

(** The loop returns [True] exactly when some window of the list is one the
    instant is inside. *)
Lemma within_existsb (t : datetime) (windows : list AwayWindow) :
  _is_within_away_window t windows = existsb (fun w => inside w t) windows.
Proof.
  induction windows as [|w rest IH]; [reflexivity|].
  unfold inside in *. cbn [existsb]. rewrite <- IH.
  cbn [_is_within_away_window].
  destruct (negb (bool_decide (Datetime.weekday t ∈ Config.days w))); [reflexivity|].
  destruct (_ <=? _).
  - destruct (_ && _); reflexivity.
  - destruct (_ || _); reflexivity.
Qed.

Lemma inside_unlisted_day (w : AwayWindow) (t : datetime) :
  Datetime.weekday t ∉ Config.days w -> inside w t = false.
Proof.
  intros Hd. unfold inside. cbn [_is_within_away_window].
  rewrite bool_decide_eq_false_2 by exact Hd. reflexivity.
Qed.

Lemma inside_listed_day (w : AwayWindow) (t : datetime) :
  Datetime.weekday t ∈ Config.days w ->
  inside w t =
    if window_start w <=? window_end w
    then (window_start w <=? minute_of_day t) && (minute_of_day t <? window_end w)
    else (window_start w <=? minute_of_day t) || (minute_of_day t <? window_end w).
Proof.
  intros Hd. unfold inside, window_start, window_end, minute_of_day.
  cbn [_is_within_away_window].
  rewrite bool_decide_eq_true_2 by exact Hd. cbn [negb].
  destruct (_ <=? _).
  - destruct (_ && _); reflexivity.
  - destruct (_ || _); reflexivity.
Qed.

(** C7: for an enabled window [w] and an instant [t] on a weekday listed in
    [w.days], with [start] and [end] the window's bounds in minutes and [m]
    the minute of the day of [t]: when [start = end] the instant is never
    inside; when [start < end] it is inside iff [start <= m < end]; when
    [start > end] it is inside iff [m >= start] or [m < end]; and on a
    weekday that is not listed the instant is not inside. *)
Theorem away_window_membership (w : AwayWindow) (t : datetime) :
  Config.enabled w = true ->
  (Datetime.weekday t ∈ Config.days w ->
     (window_start w = window_end w -> inside w t = false)
     ∧ (window_start w < window_end w ->
        (inside w t = true ↔ window_start w <= minute_of_day t < window_end w))
     ∧ (window_start w > window_end w ->
        (inside w t = true ↔
           minute_of_day t >= window_start w ∨ minute_of_day t < window_end w)))
  ∧ (Datetime.weekday t ∉ Config.days w -> inside w t = false).
Proof.
  intros _. split; [|apply inside_unlisted_day].
  intros Hd. rewrite (inside_listed_day w t Hd).
  split; [|split].
  - intros He. rewrite He, Z.leb_refl.
    apply andb_false_iff. rewrite Z.leb_gt, Z.ltb_ge. lia.
  - intros Hlt. rewrite (proj2 (Z.leb_le _ _)) by lia.
    rewrite andb_true_iff, Z.leb_le, Z.ltb_lt. reflexivity.
  - intros Hgt. rewrite (proj2 (Z.leb_gt _ _)) by lia.
    rewrite orb_true_iff, Z.leb_le, Z.ltb_lt. lia.
Qed.

Lemma away_window_membership_witness :
  Config.enabled Sample.office_hours = true
  ∧ (inside Sample.office_hours Sample.monday_noon = true ↔ 540 <= 720 < 1020).
Proof.
  split; [reflexivity|].
  destruct (away_window_membership Sample.office_hours Sample.monday_noon eq_refl)
    as [Hin _].
  destruct Hin as (_ & Hlt & _).
  - vm_compute. set_solver.
  - apply Hlt. vm_compute. reflexivity.
Defined.

(** C3, on the code: a window with [enabled = False] that spans the whole
    day makes the membership test answer [True], although the list has no
    enabled window at all. *)
Theorem disabled_window_still_covers :
  _is_within_away_window Sample.monday_noon [Sample.disabled_all_day] = true
  ∧ _is_within_away_window Sample.monday_noon
      (filter (fun w => Config.enabled w = true) [Sample.disabled_all_day]) = false.
Proof. split; reflexivity. Qed.

(** Where every window of the list is enabled, the membership test is the
    test for an enabled window that covers the instant. *)
Lemma within_all_enabled (t : datetime) (windows : list AwayWindow) :
  forallb Config.enabled windows = true ->
  _is_within_away_window t windows = enabled_window_covers t windows.
Proof.
  intros Hall. rewrite within_existsb. unfold enabled_window_covers.
  induction windows as [|w rest IH]; [reflexivity|].
  cbn [forallb existsb] in *. apply andb_true_iff in Hall as [Hw Hrest].
  rewrite Hw, IH by exact Hrest. reflexivity.
Qed.

End AwayWindows.

(** * Input producer *)

Section InputProducer.

Import InputMonitor Spec.

(** Comparison of specification floats is antisymmetric. *)
Lemma SFcompare_antisym (a b : spec_float) :
  SFcompare b a = CompOpp <$> SFcompare a b.
Proof.
  destruct a as [sa|sa| |sa ma ea], b as [sb|sb| |sb mb eb]; cbn;
    try reflexivity;
    try (destruct sa; reflexivity); try (destruct sb; reflexivity);
    try (destruct sa, sb; reflexivity).
  destruct sa, sb; cbn; try reflexivity;
    rewrite (Z.compare_antisym ea eb);
    destruct (ea ?= eb)%Z; cbn; try reflexivity;
    rewrite !Pos.compare_cont_spec; cbn;
    rewrite (Pos.compare_antisym ma mb);
    destruct (ma ?= mb)%positive; reflexivity.
Qed.

(** On floats, [b <= a] excludes [a < b] (also when one of them is NaN). *)
Lemma float_leb_not_ltb (a b : float) :
  PrimFloat.leb b a = true -> PrimFloat.ltb a b = false.
Proof.
  rewrite leb_spec, ltb_spec. unfold SFleb, SFltb.
  rewrite (SFcompare_antisym (Prim2SF a) (Prim2SF b)).
  destruct (SFcompare (Prim2SF a) (Prim2SF b)) as [[]|]; cbn; congruence.
Qed.

Lemma truthy_within (now : datetime) (windows : list AwayWindow) :
  truthy windows && _is_within_away_window now windows
  = _is_within_away_window now windows.
Proof. destruct windows; reflexivity. Qed.

(** A sample of an active user, in terms of the membership test the code
    runs: the streak grows by the poll interval, then exactly one of the
    three outcomes happens. *)
Lemma poll_sample_active (self : InputMonitor) (idle : float) (now : datetime)
    (eid : string) (stamp : datetime) :
  PrimFloat.ltb idle (_poll_interval self) = true ->
  let streak := PrimFloat.add (_active_streak self) (_poll_interval self) in
  _poll_sample self idle now eid stamp =
    if PrimFloat.leb (_streak_threshold self) streak
       && _is_within_away_window now (_away_windows self)
    then (set_active_streak self 0%float,
          [active_during_away_event self idle eid stamp])
    else if PrimFloat.eqb streak (_poll_interval self)
    then (set_active_streak self streak, [input_detected_event idle eid stamp])
    else (set_active_streak self streak, []).
Proof.
  intros Hact. unfold _poll_sample. rewrite Hact. cbn.
  rewrite <- andb_assoc, truthy_within.
  destruct (_ && _); [reflexivity|].
  destruct (PrimFloat.eqb _ _); reflexivity.
Qed.

(** A sample of an idle user: [idle_started] is published iff the streak was
    positive, and the streak is reset. *)
Lemma poll_sample_idle (self : InputMonitor) (idle : float) (now : datetime)
    (eid : string) (stamp : datetime) :
  PrimFloat.leb (_poll_interval self) idle = true ->
  _poll_sample self idle now eid stamp =
    (set_active_streak self 0%float,
     if PrimFloat.ltb 0%float (_active_streak self)
     then [idle_started_event self eid stamp] else []).
Proof.
  intros Hidle. unfold _poll_sample.
  rewrite (float_leb_not_ltb _ _ Hidle). reflexivity.
Qed.

(** When every configured window is enabled, the sample does what the
    specification says with "an enabled away window covers now". *)
Lemma poll_sample_active_all_enabled (self : InputMonitor) (idle : float)
    (now : datetime) (eid : string) (stamp : datetime) :
  forallb Config.enabled (_away_windows self) = true ->
  PrimFloat.ltb idle (_poll_interval self) = true ->
  let streak := PrimFloat.add (_active_streak self) (_poll_interval self) in
  _poll_sample self idle now eid stamp =
    if PrimFloat.leb (_streak_threshold self) streak
       && enabled_window_covers now (_away_windows self)
    then (set_active_streak self 0%float,
          [active_during_away_event self idle eid stamp])
    else if PrimFloat.eqb streak (_poll_interval self)
    then (set_active_streak self streak, [input_detected_event idle eid stamp])
    else (set_active_streak self streak, []).
Proof.
  intros Hall Hact. cbn zeta.
  rewrite <- (within_all_enabled now _ Hall).
  exact (poll_sample_active self idle now eid stamp Hact).
Qed.

(** C8, on the code: with a streak that reaches the threshold and an away
    list whose only window is disabled, no enabled window covers [now], yet
    the sample publishes [active_during_away] and resets the streak; the
    specification's "otherwise" branch would publish nothing here, the
    streak (10 s) not being the first of a fresh streak. *)
Theorem active_during_away_on_disabled_window :
  let self := Sample.monitor_disabled_window in
  let result := _poll_sample self 1%float Sample.monday_noon "e1" Sample.monday_noon in
  PrimFloat.ltb 1%float (_poll_interval self) = true
  ∧ enabled_window_covers Sample.monday_noon (_away_windows self) = false
  ∧ PrimFloat.eqb (PrimFloat.add (_active_streak self) (_poll_interval self))
      (_poll_interval self) = false
  ∧ map Event.action result.2 = [Event.ACTIVE_DURING_AWAY]
  ∧ _active_streak result.1 = 0%float.
Proof. vm_compute. repeat split. Qed.

(** With the window switched on and covering [now], the same sample
    publishes [active_during_away] as the specification says. *)
Example active_during_away_on_enabled_window :
  let self := Sample.monitor_office in
  let result := _poll_sample self 1%float Sample.monday_noon "e1" Sample.monday_noon in
  enabled_window_covers Sample.monday_noon (_away_windows self) = true
  ∧ map Event.action result.2 = [Event.ACTIVE_DURING_AWAY]
  ∧ _active_streak result.1 = 0%float.
Proof. vm_compute. repeat split. Qed.

End InputProducer.

(** * Timeline engine *)

Section TimelineEngine.

Import Timeline Spec.

(** The engine's [in_away] local: the guard on the empty list adds nothing
    to the membership test. *)
Lemma in_away_guard (t : datetime) (windows : list AwayWindow) :
  (if InputMonitor.truthy windows
   then InputMonitor._is_within_away_window t windows else false)
  = InputMonitor._is_within_away_window t windows.
Proof. destruct windows; reflexivity. Qed.

(** Where every window of the away list is enabled, the alerts that
    [_evaluate] returns are, in order, one alert for each of the rules R1..R4
    whose condition holds on the event, with that rule's severity and
    message, and no other alert. *)
Lemma evaluate_fires_exactly_when_enabled (self : TimelineEngine)
    (uuid : nat -> string) (clock : datetime) (event : TimelineEvent) :
  forallb Config.enabled (_away_windows self) = true ->
  map (fun a => (Alert.severity a, Alert.message a))
      (_evaluate self uuid clock event)
  = map (fun r => (rule_severity r, rule_message event r))
      (fired_rules event (_away_windows self)).
Proof.
  intros Hen. unfold _evaluate, fired_rules, rule_condition, in_away.
  rewrite in_away_guard, (within_all_enabled _ _ Hen).
  destruct event as [eid src cat act subj tgt det sev ts]; cbn [Event.action Event.timestamp].
  destruct (enabled_window_covers ts (_away_windows self)); destruct act; reflexivity.
Qed.

(** C2: Monday at noon, with the one away window disabled, [in_away] is
    false and no rule's condition holds on a file event or on a Remote
    Desktop event; [_evaluate] nevertheless returns the HIGH alert of R1 for
    the file event and the CRITICAL alert of R4 for the Remote Desktop
    event.  On the empty list [in_away] is false. *)
Theorem evaluate_fires_on_disabled_window :
  let self := Timeline.mk [Sample.disabled_all_day] None in
  let summary (alerts : list Alert.Alert) :=
    map (fun a => (Alert.severity a, Alert.message a)) alerts in
  Config.enabled Sample.disabled_all_day = false
  ∧ in_away Sample.monday_noon [Sample.disabled_all_day] = false
  ∧ fired_rules Sample.file_event [Sample.disabled_all_day] = []
  ∧ fired_rules Sample.rdp_event [Sample.disabled_all_day] = []
  ∧ summary (_evaluate self Sample.uuid Sample.monday_noon Sample.file_event)
    = [(Alert.HIGH, "File file_created during away window: /tmp/test.txt")]
  ∧ summary (_evaluate self Sample.uuid Sample.monday_noon Sample.rdp_event)
    = [(Alert.CRITICAL, "Remote Desktop session during away window")]
  ∧ (forall t, in_away t [] = false).
Proof. vm_compute. repeat split. Qed.

(** Evaluate the guards of the rules once the action is known. *)
Ltac eval_guards :=
  repeat match goal with
  | H : context [bool_decide ?P] |- _ =>
      let b := eval vm_compute in (bool_decide P) in
      change (bool_decide P) with b in H
  | |- context [bool_decide ?P] =>
      let b := eval vm_compute in (bool_decide P) in
      change (bool_decide P) with b
  end.

(** Where the event's own [detail] has no key [event_id], or the event is
    a file event, every alert carries the id of the event under
    [event_id]. *)
Lemma evaluate_event_id (self : TimelineEngine) (uuid : nat -> string)
    (clock : datetime) (event : TimelineEvent) (a : Alert.Alert) :
  a ∈ _evaluate self uuid clock event ->
  Event.detail event !! "event_id" = None
  ∨ is_file_action (Event.action event) = true ->
  Alert.detail a !! "event_id" = Some (VStr (Event.id event)).
Proof.
  unfold _evaluate. rewrite in_away_guard.
  destruct event as [eid src cat act subj tgt det sev ts].
  cbn [Event.action Event.timestamp Event.detail Event.id Event.target Event.source].
  destruct (InputMonitor._is_within_away_window ts (_away_windows self)); destruct act;
    intros Ha Hc; eval_guards; cbn -[insert spread] in Ha, Hc;
    try (by apply elem_of_nil in Ha);
    apply list_elem_of_singleton in Ha; subst a; cbn -[insert spread];
    try (rewrite lookup_insert_ne by discriminate; apply lookup_insert_eq);
    (destruct Hc as [Hc|Hc]; [|discriminate]);
    unfold spread; rewrite (lookup_union_r _ _ _ Hc); apply lookup_insert_eq.
Qed.

(** With a key [event_id] in the event's own [detail], the alerts of the
    rules R2..R4 carry that entry instead of the id of the event. *)
Lemma evaluate_event_id_shadowed (self : TimelineEngine) (uuid : nat -> string)
    (clock : datetime) (event : TimelineEvent) (a : Alert.Alert) (v : value) :
  a ∈ _evaluate self uuid clock event ->
  is_file_action (Event.action event) = false ->
  Event.detail event !! "event_id" = Some v ->
  Alert.detail a !! "event_id" = Some v.
Proof.
  unfold _evaluate. rewrite in_away_guard.
  destruct event as [eid src cat act subj tgt det sev ts].
  cbn [Event.action Event.timestamp Event.detail Event.id Event.target Event.source].
  destruct (InputMonitor._is_within_away_window ts (_away_windows self)); destruct act;
    intros Ha Hf Hv; eval_guards; cbn -[insert spread] in Ha, Hf;
    try discriminate;
    try (by apply elem_of_nil in Ha);
    apply list_elem_of_singleton in Ha; subst a; cbn -[insert spread];
    unfold spread; apply lookup_union_Some_l; exact Hv.
Qed.

(** The alert loop leaves the event table alone and only adds to the log. *)
Lemma handle_alerts_events (self : TimelineEngine) (alerts : list Alert.Alert)
    (w : World) :
  Database.timeline_events (db (_handle_alerts self alerts w))
  = Database.timeline_events (db w).
Proof.
  revert w. induction alerts as [|alert rest IH]; intros w; [reflexivity|].
  cbn [_handle_alerts].
  destruct (_on_alert self) as [cb|];
    [destruct (cb alert)|];
    rewrite ?IH;
    destruct (Database.insert_alert (db w) alert) as [db'|] eqn:Hins;
    cbn; try reflexivity;
    unfold Database.insert_alert in Hins;
    destruct (existsb _ _); inversion Hins; reflexivity.
Qed.

Lemma handle_alerts_log (self : TimelineEngine) (alerts : list Alert.Alert)
    (w : World) (entry : LogEntry) :
  entry ∈ log w -> entry ∈ log (_handle_alerts self alerts w).
Proof.
  revert w. induction alerts as [|alert rest IH]; intros w Hin; [exact Hin|].
  cbn [_handle_alerts].
  destruct (_on_alert self) as [cb|];
    [destruct (cb alert)|];
    try apply IH;
    destruct (Database.insert_alert (db w) alert); cbn; unfold append;
    rewrite ?elem_of_app; auto.
Qed.

(** The event is in the store after [_handle_event], or the failure to
    insert it is in the log. *)
Lemma handle_event_persists_or_logs (self : TimelineEngine)
    (uuid : nat -> string) (clock : datetime) (event : TimelineEvent) (w : World) :
  let w' := _handle_event self uuid clock event w in
  Database.event_row event ∈ Database.timeline_events (db w')
  ∨ FailedToPersistEvent (Event.id event) ∈ log w'.
Proof.
  unfold _handle_event.
  destruct (Database.insert_event (db w) event) as [db'|] eqn:Hins.
  - left. rewrite handle_alerts_events. cbn.
    unfold Database.insert_event in Hins.
    destruct (existsb _ _); inversion Hins. cbn. unfold append.
    apply elem_of_app. right. apply list_elem_of_singleton. reflexivity.
  - right. apply handle_alerts_log. cbn. unfold append.
    apply elem_of_app. right. apply list_elem_of_singleton. reflexivity.
Qed.

(** C1, on the code: the session producer publishes a failed logon with the
    Windows event id 4625 under the key [event_id] of its [detail]; the
    engine stores the event under its own id ["id-0"] and stores one alert
    whose [detail] maps [event_id] to 4625, not to ["id-0"], and no stored
    event has the id that the alert names. *)
Theorem login_failed_alert_names_windows_event_id :
  let cycle :=
    SessionMonitor._poll_cycle Sample.linux_host Sample.session_monitor
      Sample.uuid (Datetime.mk 2024 1 1 12 0 10 0) in
  let w :=
    _handle_event Sample.engine Sample.uuid (Datetime.mk 2024 1 1 12 0 31 0)
      Sample.login_failed_event Sample.empty_world in
  cycle.2 = [Sample.login_failed_event]
  ∧ map Database.id (Database.timeline_events (db w)) = ["id-0"]
  ∧ map (fun r => Database.alert_detail r !! "event_id") (Database.alerts (db w))
    = [Some (VInt 4625)]
  ∧ Some (VInt 4625) ≠ Some (VStr (Event.id Sample.login_failed_event))
  ∧ log w = [].
Proof.
  repeat split; try (vm_compute; reflexivity). discriminate.
Qed.

End TimelineEngine.

(** * Event bus *)

Section Bus.

Import EventBus.

Lemma full_iff (q : Queue) :
  full q = true ↔ 0 < maxsize q ∧ maxsize q <= qsize q.
Proof.
  unfold full. destruct (Z.leb_spec (maxsize q) 0) as [Hle|Hgt].
  - split; [discriminate|lia].
  - rewrite Z.leb_le. lia.
Qed.

(** C4, as stated, fails: on a full bounded bus [publish] does not fail
    with [BackpressureExceeded]; the caller is suspended. *)
Lemma publish_on_full_bus_suspends :
  full (_queue Sample.full_bus) = true
  ∧ publish Sample.full_bus Sample.login_failed_event = Suspended
  ∧ publish Sample.full_bus Sample.login_failed_event
    ≠ Raised "BackpressureExceeded".
Proof. repeat split. discriminate. Qed.

(** C4, amended: [publish] appends the event to the queue when the bus is
    unbounded or has spare capacity, and suspends the caller (it does not
    fail) when the bus is bounded and full; the bus is full exactly when
    [maxsize > 0] and the queue holds at least [maxsize] events; [publish]
    raises in no case. *)
Theorem publish_enqueues_or_suspends (self : EventBus) (event : TimelineEvent) :
  publish self event
  = (if full (_queue self) then Suspended
     else Returned (mk (mkQueue (maxsize (_queue self))
                          (items (_queue self) ++ [event]))
                      (_subscribers self) (_running self)))
  ∧ (full (_queue self) = true
     ↔ 0 < maxsize (_queue self) ∧ maxsize (_queue self) <= pending self)
  ∧ (forall exc, publish self event ≠ Raised exc).
Proof.
  unfold publish, put, pending.
  split; [|split].
  - destruct (full (_queue self)); reflexivity.
  - apply full_iff.
  - intros exc. destruct (full (_queue self)); discriminate.
Qed.

Example publish_unbounded :
  pending Sample.unbounded_bus = 1
  ∧ (pending <$> match publish Sample.unbounded_bus Sample.login_failed_event with
                 | Returned b => Some b
                 | _ => None
                 end) = Some 2.
Proof. split; reflexivity. Qed.

End Bus.

(** * Store *)

Section Store.

Import Database Spec.



Lemma string_ltb_leb (x y : string) : String.ltb x y = true -> String.leb x y = true.
Proof. unfold String.ltb, String.leb. destruct (String.compare x y); congruence. Qed.



Lemma elem_of_insert_desc (r x : EventRow) (sorted : list EventRow) :
  x ∈ insert_desc r sorted ↔ x = r ∨ x ∈ sorted.
Proof.
  induction sorted as [|y rest IH]; cbn.
  - rewrite list_elem_of_singleton, elem_of_nil. tauto.
  - destruct (String.leb _ _).
    + rewrite elem_of_cons. tauto.
    + rewrite !elem_of_cons, IH. tauto.
Qed.











(** C9, as stated, fails: two successful snoozes of one alert, the second
    to an earlier instant, leave the earlier instant in the store. *)
Lemma snooze_alert_can_move_earlier :
  let first := snooze_alert Sample.db_a1 "a1" Sample.jan_2nd in
  let second := snooze_alert first.1 "a1" Sample.jan_1st in
  first.2 = true ∧ second.2 = true
  ∧ snoozed_until <$> get_alert_by_id first.1 "a1"
    = Some (Some "2024-01-02T13:00:00+00:00")
  ∧ snoozed_until <$> get_alert_by_id second.1 "a1"
    = Some (Some "2024-01-01T13:00:00+00:00")
  ∧ Datetime.ltb Sample.jan_1st Sample.jan_2nd = true
  ∧ String.ltb "2024-01-01T13:00:00+00:00" "2024-01-02T13:00:00+00:00" = true.
Proof. vm_compute. repeat split. Qed.

Lemma snooze_rowcount (rows : list AlertRow) (wanted : string) :
  (0 <? length (filter (fun r => String.eqb (alert_id r) wanted = true) rows))%nat
  = bool_decide (is_Some (head (filter (fun r => alert_id r = wanted) rows))).
Proof.
  induction rows as [|r rest IH]; [reflexivity|].
  rewrite !filter_cons.
  destruct (String.eqb_spec (alert_id r) wanted) as [Heq|Hne].
  - rewrite decide_True by reflexivity. rewrite (decide_True _ _ Heq).
    cbn. reflexivity.
  - rewrite decide_False by discriminate. rewrite (decide_False _ _ Hne).
    exact IH.
Qed.

Lemma snooze_lookup (rows : list AlertRow) (wanted other : string) (v : option string) :
  head (filter (fun r => alert_id r = other)
          (map (fun r => if String.eqb (alert_id r) wanted
                         then set_snoozed_until r v else r) rows))
  = (fun r => if String.eqb (alert_id r) wanted then set_snoozed_until r v else r)
    <$> head (filter (fun r => alert_id r = other) rows).
Proof.
  induction rows as [|r rest IH]; [reflexivity|].
  cbn [map]. rewrite !filter_cons.
  assert (Hid : alert_id (if String.eqb (alert_id r) wanted
                          then set_snoozed_until r v else r) = alert_id r)
    by (destruct (String.eqb _ _); reflexivity).
  rewrite Hid. destruct (decide (alert_id r = other)); [reflexivity|exact IH].
Qed.

(** C9, amended: [snooze_alert(id, until)] answers true exactly when an
    alert with that id is stored, and then the stored [snoozed_until] of that
    alert is [until], whatever it was before (later or earlier); alerts with
    another id and the events are left as they were. *)
Theorem snooze_alert_replaces (db : Db) (wanted : string) (until : datetime) :
  let result := snooze_alert db wanted until in
  (result.2 = true ↔ is_Some (get_alert_by_id db wanted))
  ∧ snoozed_until <$> get_alert_by_id result.1 wanted
    = (fun _ => Some (Datetime.isoformat until)) <$> get_alert_by_id db wanted
  ∧ (forall other, other ≠ wanted ->
       get_alert_by_id result.1 other = get_alert_by_id db other)
  ∧ timeline_events result.1 = timeline_events db.
Proof.
  cbn zeta. unfold snooze_alert, get_alert_by_id.
  cbn [fst snd alerts timeline_events].
  split; [|split; [|split]].
  - rewrite snooze_rowcount. apply bool_decide_eq_true.
  - rewrite snooze_lookup.
    destruct (head (filter _ (alerts db))) as [r|] eqn:Hr; [|reflexivity].
    apply head_Some_elem_of, list_elem_of_filter in Hr as [Hid _].
    cbn. rewrite Hid, String.eqb_refl. reflexivity.
  - intros other Hne. rewrite snooze_lookup.
    destruct (head (filter _ (alerts db))) as [r|] eqn:Hr; [|reflexivity].
    apply head_Some_elem_of, list_elem_of_filter in Hr as [Hid _].
    cbn. rewrite Hid. destruct (String.eqb_spec other wanted); [contradiction|].
    reflexivity.
  - reflexivity.
Qed.

End Store.

(** * Session producer *)

Section SessionProducer.

Import SessionMonitor Spec.

Lemma leb_false_ltb (a b : datetime) :
  Datetime.leb a b = false -> Datetime.ltb b a = true.
Proof.
  unfold Datetime.leb, Datetime.ltb. rewrite Z.leb_gt, Z.ltb_lt. lia.
Qed.

(** The native reader only collects records newer than [since]. *)
Lemma read_batch_newer (event_ids : gset Z) (since : datetime)
    (events : list NativeRecord) (results : list Raw) :
  Forall (fun raw => is_newer since raw = true) results ->
  Forall (fun raw => is_newer since raw = true)
    (match read_batch event_ids since events results with
     | inl r => r
     | inr r => r
     end).
Proof.
  revert results. induction events as [|ev rest IH]; intros results Hres; cbn.
  - exact Hres.
  - destruct (Datetime.leb (TimeGenerated ev) since) eqn:Hold; [exact Hres|].
    destruct (bool_decide _); [|apply IH; exact Hres].
    apply IH. unfold append. apply Forall_app. split; [exact Hres|].
    apply Forall_singleton. unfold is_newer. cbn.
    apply leb_false_ltb. exact Hold.
Qed.

Lemma read_batches_newer (event_ids : gset Z) (since : datetime)
    (batches : list (list NativeRecord)) (results : list Raw) :
  Forall (fun raw => is_newer since raw = true) results ->
  Forall (fun raw => is_newer since raw = true)
    (read_batches event_ids since batches results).
Proof.
  revert results. induction batches as [|events more IH]; intros results Hres.
  - exact Hres.
  - destruct events as [|ev rest]; [exact Hres|].
    cbn [read_batches].
    pose proof (read_batch_newer event_ids since (ev :: rest) results Hres) as Hb.
    destruct (read_batch event_ids since (ev :: rest) results) as [r|r].
    + apply IH. exact Hb.
    + exact Hb.
Qed.

Lemma native_reader_newer (host : Host) (log_type : string)
    (source : option string) (event_ids : gset Z) (since : datetime) :
  Forall (fun raw => is_newer since raw = true)
    (_read_events_blocking host log_type source event_ids since None).
Proof.
  unfold _read_events_blocking.
  destruct (negb (is_windows host)); [constructor|].
  destruct (negb (has_pywin32 host)); [constructor|].
  apply read_batches_newer. constructor.
Qed.

(** Every published event stems from a fetched record and carries its
    timestamp ([now] when the record has none). *)
Lemma publish_all_origin (uuid : nat -> string) (now : datetime) (k : nat)
    (events : list Raw) (te : TimelineEvent) :
  te ∈ publish_all uuid now k events ->
  ∃ raw, raw ∈ events
         ∧ Event.timestamp te = default now (raw_timestamp raw).
Proof.
  revert k. induction events as [|raw rest IH]; intros k Hin; cbn in Hin.
  - by apply elem_of_nil in Hin.
  - destruct (or_else _ _) as [action|].
    + apply elem_of_cons in Hin as [->|Hin].
      * exists raw. split; [left|reflexivity].
      * destruct (IH _ Hin) as (raw' & Hraw & Hts).
        exists raw'. split; [right; exact Hraw|exact Hts].
    + destruct (IH _ Hin) as (raw' & Hraw & Hts).
      exists raw'. split; [right; exact Hraw|exact Hts].
Qed.

(** C5, as stated, fails twice.  A record stamped before the high-water
    mark that an injected reader returns is published.  And with the native
    reader, a failed logon stamped 12:00:11, just after the start of the
    cycle of 12:00:10.9, is published in that cycle and again in the next
    one. *)
Lemma session_poll_publishes_stale_and_twice :
  let stale :=
    _poll_cycle Sample.linux_host Sample.stale_monitor Sample.uuid
      (Datetime.mk 2024 1 1 12 0 10 900000) in
  let first :=
    _poll_cycle Sample.windows_host Sample.native_monitor Sample.uuid
      (Datetime.mk 2024 1 1 12 0 10 900000) in
  let second :=
    _poll_cycle Sample.windows_host first.1 (fun k => Sample.uuid (S k))
      (Datetime.mk 2024 1 1 12 0 40 900000) in
  (map Event.timestamp stale.2 = [Datetime.mk 2024 1 1 11 0 0 0]
   ∧ Datetime.leb (Datetime.mk 2024 1 1 11 0 0 0)
       (_last_read_time Sample.stale_monitor) = true)
  ∧ (first.2 = [Sample.native_login_failed_event]
     ∧ map (fun te => (Event.id te, Event.action te, Event.timestamp te)) second.2
       = [("id-1", Event.LOGIN_FAILED, Datetime.mk 2024 1 1 12 0 11 0)]).
Proof. vm_compute. repeat split. Qed.

(** C5, amended: in a poll cycle that reads the native event log
    ([read_log_fn] absent), records stamped at or before the high-water mark
    [last_read_time] are suppressed: every published event carries the
    timestamp of a record that was read and is stamped later than the
    high-water mark. *)
Theorem native_poll_publishes_only_newer (host : Host) (self : SessionMonitor)
    (uuid : nat -> string) (now : datetime) (te : TimelineEvent) :
  _read_log_fn self = None ->
  te ∈ (_poll_cycle host self uuid now).2 ->
  (∃ raw, raw ∈ _fetch_all host self (_last_read_time self)
          ∧ raw_timestamp raw = Some (Event.timestamp te))
  ∧ Datetime.ltb (_last_read_time self) (Event.timestamp te) = true.
Proof.
  intros Hnone Hin.
  unfold _poll_cycle in Hin. cbn [snd] in Hin.
  apply publish_all_origin in Hin as (raw & Hraw & Hts).
  assert (Hnew : is_newer (_last_read_time self) raw = true).
  { unfold _fetch_all in Hraw. rewrite Hnone in Hraw.
    rewrite !elem_of_app in Hraw.
    destruct Hraw as [Hraw'|[Hraw'|Hraw']];
      eapply Forall_forall in Hraw'; try apply native_reader_newer; exact Hraw'. }
  unfold is_newer in Hnew. rewrite Hts.
  destruct (raw_timestamp raw) as [ts|] eqn:Hstamp; [|discriminate].
  split; [|exact Hnew].
  exists raw. split; [exact Hraw|exact Hstamp].
Qed.

Lemma native_poll_publishes_only_newer_witness :
  (∃ raw, raw ∈ _fetch_all Sample.windows_host Sample.native_monitor
                  (_last_read_time Sample.native_monitor)
          ∧ raw_timestamp raw
            = Some (Event.timestamp Sample.native_login_failed_event))
  ∧ Datetime.ltb (_last_read_time Sample.native_monitor)
      (Event.timestamp Sample.native_login_failed_event) = true.
Proof.
  apply (native_poll_publishes_only_newer Sample.windows_host
           Sample.native_monitor Sample.uuid
           (Datetime.mk 2024 1 1 12 0 10 900000)
           Sample.native_login_failed_event).
  - reflexivity.
  - apply list_elem_of_In. vm_compute. left. reflexivity.
Defined.

End SessionProducer.

(** * Email notifier *)

Section Email.

Import EmailNotifier.

(** C6, as stated, fails: [flush] is sending the snapshot [a1; a2] when a
    throttled [notify] appends [b]; the transport fails, and the snapshot is
    put back behind [b], not in front of it. *)
Lemma failed_batch_requeued_behind_new_alerts :
  let result :=
    flush_with Sample.smtp_down Sample.concurrent_notify Sample.notifier
      (Datetime.mk 2024 1 1 12 1 1 0) in
  map Alert.id (_pending result) = ["b"; "a1"; "a2"]
  ∧ _pending result ≠ [Sample.alert_a1; Sample.alert_a2; Sample.alert_b]
  ∧ _last_sent result = _last_sent Sample.notifier.
Proof.
  split; [vm_compute; reflexivity|]. split; [|reflexivity].
  intros H. apply (f_equal (map Alert.id)) in H. vm_compute in H. discriminate.
Qed.

(** C6, amended: when the transport fails for the message of a snapshot,
    [_last_sent] is left as it is, every alert of the snapshot is in
    [_pending] again, and the snapshot is appended at the end of [_pending],
    behind the alerts that were appended during the send; with none appended
    in between, [_pending] is the snapshot again. *)
Theorem failed_batch_requeued_at_end (smtp : Message -> bool)
    (during : EmailNotifier -> EmailNotifier) (self cleared : EmailNotifier)
    (alerts : list Alert.Alert) (msg : Message) (now : datetime) :
  _send_batch_begin self = Some (cleared, alerts, msg) ->
  smtp msg = false ->
  let result := _send_batch_with smtp during self now in
  alerts = _pending self
  ∧ _pending cleared = []
  ∧ _last_sent cleared = _last_sent self
  ∧ _last_sent result = _last_sent (during cleared)
  ∧ _pending result = extend (_pending (during cleared)) alerts
  ∧ (forall a, a ∈ alerts -> a ∈ _pending result)
  ∧ (_pending (during cleared) = [] -> _pending result = _pending self).
Proof.
  intros Hbegin Hfail. cbn zeta.
  unfold _send_batch_with. rewrite Hbegin, Hfail.
  unfold _send_batch_begin in Hbegin.
  destruct (_pending self) as [|first rest] eqn:Hpending; [discriminate|].
  injection Hbegin as <- <- _.
  unfold _send_batch_resume. cbn.
  repeat split; unfold extend.
  - intros a Ha. apply elem_of_app. right. exact Ha.
  - intros Hnone. rewrite Hnone. reflexivity.
Qed.

Lemma failed_batch_requeued_at_end_witness :
  _pending (_send_batch_with Sample.smtp_down Sample.concurrent_notify
              Sample.notifier (Datetime.mk 2024 1 1 12 1 1 0))
  = extend (_pending (Sample.concurrent_notify
                        (mk Sample.email_config (Some Sample.monday_noon) [])))
      [Sample.alert_a1; Sample.alert_a2].
Proof.
  refine (proj1 (proj2 (proj2 (proj2 (proj2
    (failed_batch_requeued_at_end Sample.smtp_down Sample.concurrent_notify
       Sample.notifier
       (mk Sample.email_config (Some Sample.monday_noon) [])
       [Sample.alert_a1; Sample.alert_a2]
       (build_message Sample.email_config Sample.alert_a1
          [Sample.alert_a1; Sample.alert_a2])
       (Datetime.mk 2024 1 1 12 1 1 0) _ _)))))).
  - reflexivity.
  - reflexivity.
Defined.

(** On success the snapshot leaves the queue and [_last_sent] is the send
    instant; the subject counts the batch and names the first alert's
    severity. *)
Example flush_sends_batch :
  let result := flush Sample.smtp_up Sample.notifier (Datetime.mk 2024 1 1 12 1 1 0) in
  _pending result = []
  ∧ _last_sent result = Some (Datetime.mk 2024 1 1 12 1 1 0)
  ∧ Subject (build_message Sample.email_config Sample.alert_a1
               [Sample.alert_a1; Sample.alert_a2])
    = "PIDA: 2 alert(s) — highest: HIGH".
Proof. vm_compute. repeat split. Qed.

End Email.

(** * Alert dispatcher *)

Section AlertDispatcher.

Import Dispatcher Spec.

Lemma dispatch_routes_trace (routes : list (Alert.Severity * Notifier))
    (alert : Alert.Alert) (t : Trace) :
  dispatch_routes routes alert (Alert.SEVERITY_ORDER (Alert.severity alert)) t
  = mkTrace
      (invoked t ++ map route_name (List.filter (route_fires alert) routes))
      (failures t
       ++ map (fun route => (route_name route, Alert.id alert))
            (List.filter
               (fun route => route_fires alert route && negb (run route.2 alert))
               routes)).
Proof.
  revert t. induction routes as [|[min_sev notifier] rest IH]; intros t.
  - cbn. rewrite !app_nil_r. destruct t; reflexivity.
  - cbn [dispatch_routes List.filter]. rewrite IH.
    change (route_fires alert (min_sev, notifier))
      with (Alert.SEVERITY_ORDER min_sev
            <=? Alert.SEVERITY_ORDER (Alert.severity alert)).
    cbn [snd].
    destruct (_ <=? _); cbn [andb]; [|reflexivity].
    destruct (run notifier alert); cbn [negb map invoked failures];
      unfold append; rewrite <- ?app_assoc; reflexivity.
Qed.

Lemma filter_sublist {A} (p q : A -> bool) (l : list A) :
  (forall x, p x = true -> q x = true) ->
  sublist (List.filter p l) (List.filter q l).
Proof.
  intros Hpq. induction l as [|x l IH]; cbn; [constructor|].
  destruct (p x) eqn:Hp.
  - rewrite (Hpq x Hp). constructor. exact IH.
  - destruct (q x); [constructor|]; exact IH.
Qed.

(** X1: with notifiers that return or raise an [Exception], [dispatch]
    awaits exactly the notifiers of the routes whose minimum severity ranks
    at most as high as the alert's, in the order the routes were added,
    whether or not an earlier notifier raised; and it logs a failure for
    exactly those of them that raise. *)
Theorem dispatch_awaits_routes_at_or_below (self : AlertDispatcher)
    (alert : Alert.Alert) :
  invoked (dispatch self alert)
  = map route_name (List.filter (route_fires alert) (_routes self))
  ∧ failures (dispatch self alert)
    = map (fun route => (route_name route, Alert.id alert))
        (List.filter
           (fun route => route_fires alert route && negb (run route.2 alert))
           (_routes self)).
Proof.
  unfold dispatch. rewrite dispatch_routes_trace. split; reflexivity.
Qed.

(** X2: a more severe alert reaches every notifier that a less severe one
    reaches: the notifiers awaited for the lower severity are a sub-list of
    those awaited for the higher one. *)
Theorem dispatch_monotone_in_severity (self : AlertDispatcher)
    (low high : Alert.Alert) :
  Alert.SEVERITY_ORDER (Alert.severity low)
    <= Alert.SEVERITY_ORDER (Alert.severity high) ->
  sublist (invoked (dispatch self low)) (invoked (dispatch self high)).
Proof.
  intros Hrank. unfold dispatch. rewrite !dispatch_routes_trace. cbn.
  apply (fmap_sublist route_name), filter_sublist. intros route. unfold route_fires.
  rewrite !Z.leb_le. lia.
Qed.

Lemma dispatch_monotone_in_severity_witness :
  sublist (invoked (dispatch Sample.dispatcher Sample.alert_medium))
    (invoked (dispatch Sample.dispatcher Sample.alert_a2)).
Proof.
  apply (dispatch_monotone_in_severity Sample.dispatcher Sample.alert_medium
           Sample.alert_a2).
  vm_compute. discriminate.
Defined.

(** X3: adding a route leaves the notifiers awaited so far as they are and
    adds the new notifier at the end exactly when its threshold admits the
    alert. *)
Theorem add_route_extends_dispatch (self : AlertDispatcher)
    (min_severity : Alert.Severity) (notifier : Notifier) (alert : Alert.Alert) :
  invoked (dispatch (add_route self min_severity notifier) alert)
  = (invoked (dispatch self alert)
     ++ (if Alert.SEVERITY_ORDER min_severity
            <=? Alert.SEVERITY_ORDER (Alert.severity alert)
         then [name notifier] else []))%list.
Proof.
  unfold dispatch, add_route, append. rewrite !dispatch_routes_trace. cbn.
  rewrite List.filter_app, map_app. cbn. unfold route_fires at 2. cbn.
  destruct (_ <=? _); reflexivity.
Qed.

Example dispatch_fan_out :
  invoked (dispatch Sample.dispatcher Sample.alert_a2) = ["log"; "toast"; "email"]
  ∧ failures (dispatch Sample.dispatcher Sample.alert_a2) = [("toast", "a2")]
  ∧ invoked (dispatch Sample.dispatcher Sample.alert_medium) = ["log"; "toast"].
Proof. repeat split. Qed.

End AlertDispatcher.

(** * Log notifier *)

Section LogNotifierLevels.

Import LogNotifier.

(** X4: [log_notify] logs an INFO or LOW alert at level 20 ([INFO]), a
    MEDIUM one at 30 ([WARNING]), a HIGH one at 40 ([ERROR]) and a CRITICAL
    one at 50 ([CRITICAL]): the dictionary has an entry for every severity,
    so the fallback is never taken.  The level therefore never falls when the
    severity rises, and from LOW upwards it rises with it. *)
Theorem log_level_by_severity (alert other : Alert.Alert) :
  levels !! Alert.severity_value (Alert.severity alert)
  = Some (log_notify alert).1
  ∧ (log_notify alert).1
    = match Alert.severity alert with
      | Alert.INFO | Alert.LOW => 20
      | Alert.MEDIUM => 30
      | Alert.HIGH => 40
      | Alert.CRITICAL => 50
      end
  ∧ (Alert.SEVERITY_ORDER (Alert.severity alert)
       <= Alert.SEVERITY_ORDER (Alert.severity other) ->
     (log_notify alert).1 <= (log_notify other).1)
  ∧ (Alert.SEVERITY_ORDER Alert.LOW
       <= Alert.SEVERITY_ORDER (Alert.severity alert)
       < Alert.SEVERITY_ORDER (Alert.severity other) ->
     (log_notify alert).1 < (log_notify other).1).
Proof.
  unfold log_notify. cbn [fst].
  destruct (Alert.severity alert), (Alert.severity other);
    vm_compute; repeat split; intros; intuition congruence.
Qed.

Example log_levels :
  (log_notify Sample.alert_medium).1 = 30
  ∧ (log_notify Sample.alert_a1).1 = 40
  ∧ (log_notify Sample.alert_a2).1 = 50.
Proof. repeat split. Qed.

End LogNotifierLevels.

(** * Event bus: subscribers and dispatch *)

Section BusDispatch.

Import EventBus.

(** With no [BaseException] among them, the subscribers of one event are
    all called, and the ones that raise are logged. *)
Lemma call_subscribers_caught (handler : string -> TimelineEvent -> Awaited)
    (subs : list string) (event : TimelineEvent) (t : Trace) :
  (forall sub, sub ∈ subs -> handler sub event ≠ RaisesBaseException) ->
  call_subscribers handler subs event t
  = mkTrace
      (calls t ++ map (fun sub => (sub, event)) subs)
      (failures t
       ++ map (fun sub => (sub, Event.id event))
            (List.filter (fun sub => raises_exception (handler sub event)) subs))
      (escaped t).
Proof.
  revert t. induction subs as [|sub rest IH]; intros t Hcaught.
  - cbn. rewrite !app_nil_r. destruct t; reflexivity.
  - assert (Hsub : handler sub event ≠ RaisesBaseException)
      by (apply Hcaught; left).
    assert (Hrest : forall s, s ∈ rest -> handler s event ≠ RaisesBaseException)
      by (intros s Hs; apply Hcaught; right; exact Hs).
    cbn [call_subscribers List.filter map].
    destruct (handler sub event); [| |contradiction];
      rewrite (IH _ Hrest); cbn [raises_exception calls failures escaped map];
      unfold append; rewrite <- ?app_assoc; reflexivity.
Qed.

(** The first subscriber that ends with a [BaseException] is the last one
    called. *)
Lemma call_subscribers_escapes (handler : string -> TimelineEvent -> Awaited)
    (first later : list string) (sub : string) (event : TimelineEvent)
    (t : Trace) :
  (forall s, s ∈ first -> handler s event ≠ RaisesBaseException) ->
  handler sub event = RaisesBaseException ->
  call_subscribers handler (first ++ sub :: later) event t
  = mkTrace
      (calls t ++ map (fun s => (s, event)) (first ++ [sub]))
      (failures t
       ++ map (fun s => (s, Event.id event))
            (List.filter (fun s => raises_exception (handler s event)) first))
      (Some (sub, Event.id event)).
Proof.
  intros Hcaught Hsub. revert t Hcaught.
  induction first as [|s rest IH]; intros t Hcaught.
  - cbn [app call_subscribers List.filter map]. rewrite Hsub, app_nil_r.
    reflexivity.
  - assert (Hs : handler s event ≠ RaisesBaseException)
      by (apply Hcaught; left).
    assert (Hrest : forall s', s' ∈ rest -> handler s' event ≠ RaisesBaseException)
      by (intros s' Hs'; apply Hcaught; right; exact Hs').
    rewrite <- !app_comm_cons. cbn [call_subscribers List.filter map].
    destruct (handler s event); [| |contradiction];
      rewrite (IH _ Hrest); cbn [raises_exception calls failures map];
      unfold append; rewrite <- ?app_assoc; reflexivity.
Qed.

Lemma dispatch_events_caught (handler : string -> TimelineEvent -> Awaited)
    (subs : list string) (events : list TimelineEvent) (t : Trace) :
  escaped t = None ->
  (forall sub event, sub ∈ subs -> event ∈ events ->
     handler sub event ≠ RaisesBaseException) ->
  dispatch_events handler subs events t
  = (mkTrace
       (calls t
        ++ flat_map (fun event => map (fun sub => (sub, event)) subs) events)
       (failures t
        ++ flat_map
             (fun event =>
                map (fun sub => (sub, Event.id event))
                  (List.filter (fun sub => raises_exception (handler sub event))
                     subs))
             events)
       None,
     []).
Proof.
  revert t. induction events as [|event rest IH]; intros t Hnone Hcaught.
  - cbn. rewrite !app_nil_r. destruct t; cbn in Hnone; subst; reflexivity.
  - cbn [dispatch_events flat_map].
    rewrite call_subscribers_caught
      by (intros sub Hsub; apply Hcaught; [exact Hsub|left]).
    cbn [escaped]. rewrite Hnone.
    rewrite IH; [|reflexivity|intros sub ev Hsub Hev; apply Hcaught; [exact Hsub|right; exact Hev]].
    cbn [calls failures]. rewrite <- !app_assoc. reflexivity.
Qed.

Lemma dispatch_events_escapes (handler : string -> TimelineEvent -> Awaited)
    (first later : list string) (sub : string)
    (before after : list TimelineEvent) (event : TimelineEvent) (t : Trace) :
  escaped t = None ->
  (forall s e, s ∈ (first ++ sub :: later)%list -> e ∈ before ->
     handler s e ≠ RaisesBaseException) ->
  (forall s, s ∈ first -> handler s event ≠ RaisesBaseException) ->
  handler sub event = RaisesBaseException ->
  dispatch_events handler (first ++ sub :: later) (before ++ event :: after) t
  = (mkTrace
       (calls t
        ++ flat_map
             (fun e => map (fun s => (s, e)) (first ++ sub :: later)%list) before
        ++ map (fun s => (s, event)) (first ++ [sub]))
       (failures t
        ++ flat_map
             (fun e =>
                map (fun s => (s, Event.id e))
                  (List.filter (fun s => raises_exception (handler s e))
                     (first ++ sub :: later)%list))
             before
        ++ map (fun s => (s, Event.id event))
             (List.filter (fun s => raises_exception (handler s event)) first))
       (Some (sub, Event.id event)),
     after).
Proof.
  intros Hnone Hbefore Hfirst Hsub. revert t Hnone Hbefore.
  induction before as [|e rest IH]; intros t Hnone Hbefore.
  - cbn [app dispatch_events flat_map].
    rewrite (call_subscribers_escapes _ _ _ _ _ _ Hfirst Hsub).
    reflexivity.
  - rewrite <- app_comm_cons. cbn [dispatch_events flat_map].
    rewrite call_subscribers_caught
      by (intros s Hs; apply Hbefore; [exact Hs|left]).
    cbn [escaped]. rewrite Hnone.
    rewrite IH; [|reflexivity|intros s e' Hs He'; apply Hbefore; [exact Hs|right; exact He']].
    cbn [calls failures]. rewrite <- !app_assoc. reflexivity.
Qed.

(** X5: as long as no subscriber ends with a [BaseException] on a queued
    event, a running bus hands every queued event, in queue order, to every
    subscriber, in registration order, whether or not an earlier subscriber
    raised an [Exception]; it logs one failure per subscriber and event that
    raised one, and leaves the queue empty and the subscribers as they were.
    A bus that is not running dispatches nothing. *)
Theorem dispatch_loop_delivers_all (handler : string -> TimelineEvent -> Awaited)
    (self : EventBus) :
  (forall sub event, sub ∈ _subscribers self -> event ∈ items (_queue self) ->
     handler sub event ≠ RaisesBaseException) ->
  _dispatch_loop handler self
  = if _running self
    then (mk (mkQueue (maxsize (_queue self)) []) (_subscribers self) true,
          mkTrace
            (flat_map (fun event => map (fun sub => (sub, event)) (_subscribers self))
               (items (_queue self)))
            (flat_map
               (fun event =>
                  map (fun sub => (sub, Event.id event))
                    (List.filter
                       (fun sub => raises_exception (handler sub event))
                       (_subscribers self)))
               (items (_queue self)))
            None)
    else (self, mkTrace [] [] None).
Proof.
  intros Hcaught. unfold _dispatch_loop.
  destruct (_running self) eqn:Hrun; [|reflexivity].
  rewrite (dispatch_events_caught _ _ _ (mkTrace [] [] None) eq_refl Hcaught). reflexivity.
Qed.

Lemma dispatch_loop_delivers_all_witness :
  _dispatch_loop Sample.ws_forward_fails Sample.busy_bus
  = (mk (mkQueue 0 []) ["engine"; "ws_forward"] true,
     mkTrace
       [("engine", Sample.login_failed_event);
        ("ws_forward", Sample.login_failed_event);
        ("engine", Sample.event_at "e-after" Sample.jan_1st);
        ("ws_forward", Sample.event_at "e-after" Sample.jan_1st)]
       [("ws_forward", "id-0"); ("ws_forward", "e-after")]
       None).
Proof.
  apply (dispatch_loop_delivers_all Sample.ws_forward_fails Sample.busy_bus).
  intros sub event _ _. unfold Sample.ws_forward_fails.
  destruct (String.eqb sub "ws_forward"); discriminate.
Defined.

(** X12: a subscriber that ends with a [BaseException] (its task is
    cancelled) ends the dispatch loop: the earlier events have gone to every
    subscriber, the event at hand has gone to the subscribers registered
    before that one and to it, the subscribers registered after it are not
    called for this event, nothing is logged for the call, and the later
    events stay in the queue undelivered. *)
Theorem dispatch_loop_ends_at_base_exception
    (handler : string -> TimelineEvent -> Awaited) (self : EventBus)
    (first later : list string) (sub : string)
    (before after : list TimelineEvent) (event : TimelineEvent) :
  _running self = true ->
  _subscribers self = (first ++ sub :: later)%list ->
  items (_queue self) = (before ++ event :: after)%list ->
  (forall s e, s ∈ _subscribers self -> e ∈ before ->
     handler s e ≠ RaisesBaseException) ->
  (forall s, s ∈ first -> handler s event ≠ RaisesBaseException) ->
  handler sub event = RaisesBaseException ->
  let result := _dispatch_loop handler self in
  calls result.2
  = (flat_map (fun e => map (fun s => (s, e)) (_subscribers self)) before
     ++ map (fun s => (s, event)) first ++ [(sub, event)])%list
  ∧ failures result.2
    = (flat_map
         (fun e =>
            map (fun s => (s, Event.id e))
              (List.filter (fun s => raises_exception (handler s e))
                 (_subscribers self)))
         before
       ++ map (fun s => (s, Event.id event))
            (List.filter (fun s => raises_exception (handler s event)) first))%list
  ∧ escaped result.2 = Some (sub, Event.id event)
  ∧ items (_queue result.1) = after
  ∧ _subscribers result.1 = _subscribers self.
Proof.
  intros Hrun Hsubs Hitems Hbefore Hfirst Hsub. cbn zeta.
  unfold _dispatch_loop. rewrite Hrun, Hitems.
  rewrite Hsubs in Hbefore |- *.
  rewrite (dispatch_events_escapes _ _ _ _ _ _ _ (mkTrace [] [] None) eq_refl Hbefore Hfirst Hsub).
  cbn [fst snd calls failures escaped _queue items _subscribers app].
  rewrite map_app. repeat split; reflexivity.
Qed.

Lemma dispatch_loop_ends_at_base_exception_witness :
  let result := _dispatch_loop Sample.engine_cancelled Sample.busy_bus in
  calls result.2 = [("engine", Sample.login_failed_event)]
  ∧ failures result.2 = []
  ∧ escaped result.2 = Some ("engine", "id-0")
  ∧ items (_queue result.1) = [Sample.event_at "e-after" Sample.jan_1st]
  ∧ _subscribers result.1 = ["engine"; "ws_forward"].
Proof.
  apply (dispatch_loop_ends_at_base_exception Sample.engine_cancelled
           Sample.busy_bus [] ["ws_forward"] "engine" []
           [Sample.event_at "e-after" Sample.jan_1st]
           Sample.login_failed_event).
  - reflexivity.
  - reflexivity.
  - reflexivity.
  - intros s e _ He. by apply elem_of_nil in He.
  - intros s Hs. by apply elem_of_nil in Hs.
  - reflexivity.
Defined.

(** The calls of one subscriber among the calls for one event: one per
    registration. *)
Lemma calls_of_subscriber (sub : string) (subs : list string) (event : TimelineEvent) :
  map snd
    (List.filter (fun call : string * TimelineEvent => String.eqb call.1 sub)
       (map (fun s => (s, event)) subs))
  = repeat event (length (List.filter (fun s => String.eqb s sub) subs)).
Proof.
  induction subs as [|s rest IH]; [reflexivity|].
  cbn [map List.filter fst]. destruct (String.eqb s sub); cbn; rewrite IH;
    reflexivity.
Qed.

(** X6: as long as no subscriber ends with a [BaseException] on a queued
    event, a subscriber that is registered once sees the queued events in
    publish order, each exactly once, whether the other subscribers return or
    raise an [Exception], and whether or not they are registered more than
    once. *)
Theorem subscriber_sees_publish_order (handler : string -> TimelineEvent -> Awaited)
    (self : EventBus) (sub : string) :
  _running self = true ->
  length (List.filter (fun s => String.eqb s sub) (_subscribers self)) = 1%nat ->
  (forall s event, s ∈ _subscribers self -> event ∈ items (_queue self) ->
     handler s event ≠ RaisesBaseException) ->
  map snd
    (List.filter (fun call : string * TimelineEvent => String.eqb call.1 sub)
       (calls (_dispatch_loop handler self).2))
  = items (_queue self).
Proof.
  intros Hrun Honce Hcaught. unfold _dispatch_loop. rewrite Hrun. cbn [snd].
  rewrite (dispatch_events_caught _ _ _ (mkTrace [] [] None) eq_refl Hcaught). cbn [fst calls app].
  clear Hcaught.
  induction (items (_queue self)) as [|event rest IH]; [reflexivity|].
  cbn [flat_map]. rewrite List.filter_app, map_app.
  rewrite calls_of_subscriber, Honce, IH. reflexivity.
Qed.

Lemma subscriber_sees_publish_order_witness :
  map snd
    (List.filter (fun call : string * TimelineEvent => String.eqb call.1 "engine")
       (calls (_dispatch_loop Sample.ws_forward_fails Sample.noisy_bus).2))
  = items (_queue Sample.noisy_bus).
Proof.
  apply (subscriber_sees_publish_order Sample.ws_forward_fails Sample.noisy_bus
           "engine").
  - reflexivity.
  - reflexivity.
  - intros s event _ _. unfold Sample.ws_forward_fails.
    destruct (String.eqb s "ws_forward"); discriminate.
Defined.

(** X7: a run of [publish] calls returns, with the events appended to the
    queue in publish order, when the bus is unbounded or the queue has room
    for all of them; otherwise the run stays suspended at the first event
    that finds the queue full.  It raises in no case. *)
Theorem publish_sequence_fifo (self : EventBus) (events : list TimelineEvent) :
  publish_sequence self events
  = match events with
    | [] => Returned self
    | _ =>
        if (maxsize (_queue self) <=? 0)
           || (pending self + Z.of_nat (length events) <=? maxsize (_queue self))
        then Returned (mk (mkQueue (maxsize (_queue self))
                             (items (_queue self) ++ events))
                         (_subscribers self) (_running self))
        else Suspended
    end.
Proof.
  revert self. induction events as [|event rest IH]; intros self; [reflexivity|].
  cbn [publish_sequence]. unfold publish, put, full, pending, qsize.
  destruct self as [[cap queued] subs running]. cbn [_queue maxsize items _subscribers _running].
  destruct (Z.leb_spec cap 0) as [Hunbounded|Hbounded]; cbn [orb].
  - rewrite IH. destruct rest as [|next rest]; [reflexivity|].
    cbn [_queue maxsize items _subscribers _running].
    rewrite (proj2 (Z.leb_le cap 0)) by lia. cbn [orb].
    unfold append. rewrite <- app_assoc. reflexivity.
  - destruct (Z.leb_spec cap (Z.of_nat (length queued))) as [Hfull|Hroom].
    + rewrite (proj2 (Z.leb_gt _ _)); [reflexivity|].
      cbn [length]. lia.
    + rewrite IH. destruct rest as [|next rest].
      * rewrite (proj2 (Z.leb_le _ _)); [reflexivity|]. cbn [length]. lia.
      * cbn [_queue maxsize items _subscribers _running].
        unfold pending, qsize. cbn [_queue maxsize items].
        rewrite (proj2 (Z.leb_gt cap 0)) by lia. cbn [orb].
        unfold append. rewrite length_app. cbn [length].
        replace (Z.of_nat (length queued + 1) + Z.of_nat (S (length rest)))
          with (Z.of_nat (length queued) + Z.of_nat (S (S (length rest)))) by lia.
        destruct (_ <=? _); [|reflexivity].
        rewrite <- app_assoc. reflexivity.
Qed.

Lemma list_remove_absent (x : string) (l : list string) :
  list_remove x l = None ↔ x ∉ l.
Proof.
  induction l as [|y rest IH]; cbn.
  - split; [intros _; apply not_elem_of_nil|reflexivity].
  - rewrite not_elem_of_cons.
    destruct (String.eqb_spec y x) as [->|Hne].
    + split; [discriminate|]. intros [Hne _]. contradiction.
    + destruct (list_remove x rest) as [rest'|].
      * split; [discriminate|]. intros [_ Hnot]. apply IH in Hnot. discriminate.
      * split; [|reflexivity]. intros _. split; [congruence|]. apply IH. reflexivity.
Qed.

Lemma list_remove_length (x : string) (l l' : list string) :
  list_remove x l = Some l' -> length l = S (length l').
Proof.
  revert l'. induction l as [|y rest IH]; intros l' Hrm; [discriminate|].
  cbn in Hrm. destruct (String.eqb y x); [injection Hrm as <-; reflexivity|].
  destruct (list_remove x rest) as [rest'|]; [|discriminate].
  injection Hrm as <-. cbn. rewrite (IH rest' eq_refl). reflexivity.
Qed.

Lemma list_remove_appended (x : string) (l : list string) :
  x ∉ l -> list_remove x (l ++ [x]) = Some l.
Proof.
  induction l as [|y rest IH]; intros Hnot; cbn.
  - rewrite String.eqb_refl. reflexivity.
  - apply not_elem_of_cons in Hnot as [Hne Hnot].
    destruct (String.eqb_spec y x) as [->|_]; [contradiction|].
    rewrite (IH Hnot). reflexivity.
Qed.

(** X8: [unsubscribe] raises [ValueError] exactly when the callback is not
    subscribed; when it returns, the bus has one subscriber fewer and the
    same queue and running flag. *)
Theorem unsubscribe_raises_iff_absent (self : EventBus) (callback : string) :
  (unsubscribe self callback = Raised "ValueError"
   ↔ callback ∉ _subscribers self)
  ∧ (forall self', unsubscribe self callback = Returned self' ->
       subscriber_count self = S (subscriber_count self')
       ∧ _queue self' = _queue self ∧ _running self' = _running self)
  ∧ unsubscribe self callback ≠ Suspended.
Proof.
  unfold unsubscribe, subscriber_count.
  pose proof (list_remove_absent callback (_subscribers self)) as Habsent.
  destruct (list_remove callback (_subscribers self)) as [subs|] eqn:Hrm.
  - split; [|split]; [|intros self' Heq|discriminate].
    + split; [discriminate|]. intros Hnot. apply Habsent in Hnot. discriminate.
    + injection Heq as <-. cbn. split; [|split; reflexivity].
      apply (list_remove_length callback). exact Hrm.
  - split; [|split]; [|discriminate|discriminate].
    split; [intros _; apply Habsent; reflexivity|reflexivity].
Qed.

(** X9: subscribing a callback that was not subscribed and unsubscribing it
    again gives the bus back as it was. *)
Theorem subscribe_unsubscribe_round_trip (self : EventBus) (callback : string) :
  callback ∉ _subscribers self ->
  unsubscribe (subscribe self callback) callback = Returned self.
Proof.
  intros Hnot. unfold unsubscribe, subscribe, append. cbn.
  rewrite (list_remove_appended callback _ Hnot). destruct self; reflexivity.
Qed.

Lemma subscribe_unsubscribe_round_trip_witness :
  unsubscribe (subscribe Sample.busy_bus "dashboard") "dashboard"
  = Returned Sample.busy_bus.
Proof.
  apply (subscribe_unsubscribe_round_trip Sample.busy_bus "dashboard").
  intros Hin. apply list_elem_of_In in Hin. cbn in Hin. intuition discriminate.
Defined.

End BusDispatch.

(** * Store: acknowledge, insert and lookup, ordering, pages *)

Section StoreOperations.

Import Database Spec.

(** An update that keeps the id of every row commutes with lookup by id. *)
Lemma update_lookup (f : AlertRow -> AlertRow) (rows : list AlertRow)
    (other : string) :
  (forall r, alert_id (f r) = alert_id r) ->
  head (filter (fun r => alert_id r = other) (map f rows))
  = f <$> head (filter (fun r => alert_id r = other) rows).
Proof.
  intros Hid. induction rows as [|r rest IH]; [reflexivity|].
  cbn [map]. rewrite !filter_cons, Hid.
  destruct (decide (alert_id r = other)); [reflexivity|exact IH].
Qed.

Lemma update_rowcount (f : AlertRow -> AlertRow) (rows : list AlertRow)
    (wanted : string) :
  (forall r, alert_id (f r) = alert_id r) ->
  length (filter (fun r => String.eqb (alert_id r) wanted = true) (map f rows))
  = length (filter (fun r => String.eqb (alert_id r) wanted = true) rows).
Proof.
  intros Hid. induction rows as [|r rest IH]; [reflexivity|].
  cbn [map]. rewrite !filter_cons, Hid.
  destruct (decide (String.eqb (alert_id r) wanted = true)); cbn; rewrite IH;
    reflexivity.
Qed.

Lemma acknowledge_keeps_id (wanted : string) (r : AlertRow) :
  alert_id (if String.eqb (alert_id r) wanted then set_acknowledged r 1 else r)
  = alert_id r.
Proof. destruct (String.eqb _ _); reflexivity. Qed.

(** X10: [acknowledge_alert(id)] answers true exactly when an alert with
    that id is stored; afterwards that alert is acknowledged and otherwise
    as it was, every other alert and the events are untouched, no
    acknowledged alert has become unacknowledged, and a second call answers
    the same and changes nothing. *)
Theorem acknowledge_alert_idempotent (db : Db) (wanted : string) :
  let result := acknowledge_alert db wanted in
  (result.2 = true ↔ is_Some (get_alert_by_id db wanted))
  ∧ get_alert_by_id result.1 wanted
    = (fun r => set_acknowledged r 1) <$> get_alert_by_id db wanted
  ∧ (forall other, other ≠ wanted ->
       get_alert_by_id result.1 other = get_alert_by_id db other)
  ∧ (forall other r, get_alert_by_id db other = Some r -> acknowledged r = 1 ->
       acknowledged <$> get_alert_by_id result.1 other = Some 1)
  ∧ timeline_events result.1 = timeline_events db
  ∧ acknowledge_alert result.1 wanted = result.
Proof.
  cbn zeta. unfold acknowledge_alert, get_alert_by_id.
  cbn [fst snd alerts timeline_events].
  assert (Hlookup : forall other,
    head (filter (fun r => alert_id r = other)
            (map (fun r => if String.eqb (alert_id r) wanted
                           then set_acknowledged r 1 else r) (alerts db)))
    = (fun r => if String.eqb (alert_id r) wanted
                then set_acknowledged r 1 else r)
      <$> head (filter (fun r => alert_id r = other) (alerts db))).
  { intros other. apply update_lookup. apply acknowledge_keeps_id. }
  split; [|split; [|split; [|split; [|split]]]].
  - rewrite snooze_rowcount. apply bool_decide_eq_true.
  - rewrite Hlookup.
    destruct (head (filter _ (alerts db))) as [r|] eqn:Hr; [|reflexivity].
    apply head_Some_elem_of, list_elem_of_filter in Hr as [Hid _].
    cbn. rewrite Hid, String.eqb_refl. reflexivity.
  - intros other Hne. rewrite Hlookup.
    destruct (head (filter _ (alerts db))) as [r|] eqn:Hr; [|reflexivity].
    apply head_Some_elem_of, list_elem_of_filter in Hr as [Hid _].
    cbn. rewrite Hid. destruct (String.eqb_spec other wanted); [contradiction|].
    reflexivity.
  - intros other r Hr Hack. rewrite Hlookup, Hr. cbn.
    destruct (String.eqb _ _); cbn; [reflexivity|]. rewrite Hack. reflexivity.
  - reflexivity.
  - f_equal.
    + f_equal. rewrite map_map. apply map_ext. intros r.
      rewrite acknowledge_keeps_id.
      destruct (String.eqb (alert_id r) wanted); reflexivity.
    + rewrite update_rowcount by apply acknowledge_keeps_id. reflexivity.
Qed.

Lemma existsb_false_filter (rows : list EventRow) (wanted : string) :
  existsb (fun r => String.eqb (id r) wanted) rows = false ->
  filter (fun r => id r = wanted) rows = [].
Proof.
  induction rows as [|r rest IH]; [reflexivity|]. cbn [existsb].
  intros [Hr Hrest]%orb_false_iff. rewrite filter_cons.
  destruct (String.eqb_spec (id r) wanted); [discriminate|].
  rewrite decide_False by assumption. apply IH. exact Hrest.
Qed.

(** X11: an event that [insert_event] accepts is returned by
    [get_event_by_id] under its id, as the row written; the events stored
    under other ids and the alerts are as before. *)
Theorem insert_event_then_get (db db' : Db) (event : TimelineEvent) :
  insert_event db event = Some db' ->
  get_event_by_id db' (Event.id event) = Some (event_row event)
  ∧ (forall other, other ≠ Event.id event ->
       get_event_by_id db' other = get_event_by_id db other)
  ∧ alerts db' = alerts db.
Proof.
  unfold insert_event, get_event_by_id.
  destruct (existsb _ (timeline_events db)) eqn:Hdup; [discriminate|].
  intros [= <-]. cbn [timeline_events alerts]. unfold append.
  split; [|split; [|reflexivity]].
  - rewrite filter_app, (existsb_false_filter _ _ Hdup), app_nil_l.
    rewrite filter_cons, decide_True by reflexivity. reflexivity.
  - intros other Hne. rewrite filter_app.
    rewrite (filter_cons _ (event_row event)), decide_False by (cbn; congruence).
    rewrite filter_nil, app_nil_r. reflexivity.
Qed.

Lemma insert_event_then_get_witness :
  get_event_by_id
    (mkDb (append [] (event_row Sample.login_failed_event)) [])
    (Event.id Sample.login_failed_event)
  = Some (event_row Sample.login_failed_event).
Proof.
  apply (insert_event_then_get Database.empty _ Sample.login_failed_event).
  reflexivity.
Defined.

End StoreOperations.

(** * Store: ordering, pages and the alert listing *)

Section StoreQueries.

Import Database Spec.

Lemma ascii_compare_trans (x y z : ascii) (c : comparison) :
  Ascii.compare x y = c -> Ascii.compare y z = c -> Ascii.compare x z = c.
Proof.
  unfold Ascii.compare.
  destruct (N.compare_spec (N_of_ascii x) (N_of_ascii y));
    destruct (N.compare_spec (N_of_ascii y) (N_of_ascii z));
    destruct (N.compare_spec (N_of_ascii x) (N_of_ascii z));
    intros <-; intros; try congruence; lia.
Qed.

Lemma string_leb_trans (a b c : string) :
  String.leb a b = true -> String.leb b c = true -> String.leb a c = true.
Proof.
  unfold String.leb. revert b c.
  induction a as [|x a IH]; intros [|y b] [|z c]; cbn; try congruence.
  destruct (Ascii.compare x y) eqn:Hxy; destruct (Ascii.compare y z) eqn:Hyz;
    try congruence.
  - rewrite (ascii_compare_trans x y z Eq Hxy Hyz). apply IH.
  - apply Ascii.compare_eq_iff in Hxy as ->. rewrite Hyz. reflexivity.
  - apply Ascii.compare_eq_iff in Hyz as <-. rewrite Hxy. reflexivity.
  - rewrite (ascii_compare_trans x y z Lt Hxy Hyz). reflexivity.
Qed.

Lemma string_leb_false (a b : string) :
  String.leb a b = false -> String.leb b a = true.
Proof.
  intros Hab. destruct (String.leb_total a b) as [H|H]; congruence.
Qed.

Lemma descending_insert (r : EventRow) (sorted : list EventRow) :
  descending (map timestamp sorted) ->
  descending (map timestamp (insert_desc r sorted)).
Proof.
  induction sorted as [|x rest IH]; intros Hsorted.
  - cbn. split; [constructor|exact I].
  - cbn [insert_desc]. destruct (String.leb (timestamp x) (timestamp r)) eqn:Hle.
    + cbn [map descending] in *. destruct Hsorted as [Hx Hrest].
      split; [|split; assumption].
      constructor; [exact Hle|].
      eapply Forall_impl; [exact Hx|]. cbn. intros k Hk.
      eapply string_leb_trans; eassumption.
    + cbn [map descending] in *. destruct Hsorted as [Hx Hrest].
      split; [|apply IH; exact Hrest].
      apply Forall_forall. intros k Hk.
      apply list_elem_of_fmap in Hk as (row & -> & Hrow).
      apply elem_of_insert_desc in Hrow as [->|Hrow].
      * apply string_leb_false. exact Hle.
      * eapply Forall_forall in Hx; [exact Hx|].
        apply list_elem_of_fmap. eauto.
Qed.

Lemma descending_order_by (rows : list EventRow) :
  descending (map timestamp (order_by_timestamp_desc rows)).
Proof.
  unfold order_by_timestamp_desc.
  induction rows as [|r rest IH]; [exact I|].
  cbn [foldr]. apply descending_insert. exact IH.
Qed.

Lemma descending_drop (n : nat) (keys : list string) :
  descending keys -> descending (drop n keys).
Proof.
  revert n. induction keys as [|k rest IH]; intros [|n] Hd; try exact Hd.
  cbn. apply IH. apply Hd.
Qed.

Lemma descending_take (n : nat) (keys : list string) :
  descending keys -> descending (take n keys).
Proof.
  revert n. induction keys as [|k rest IH]; intros [|n] Hd; try exact I.
  cbn in *. destruct Hd as [Hk Hrest]. split; [|apply IH; exact Hrest].
  apply Forall_take. exact Hk.
Qed.

(** X13: whatever the filters, limit and offset, [get_events] returns its
    rows in descending order of the timestamp text: no row is followed by a
    row with a greater timestamp. *)
Theorem get_events_descending (db : Db) (category action : option string)
    (since : option Datetime.zoned) (limit offset : Z) :
  descending (map timestamp (get_events db category action since limit offset)).
Proof.
  unfold get_events, limit_offset.
  destruct (limit <? 0).
  - rewrite fmap_drop. apply descending_drop, descending_order_by.
  - rewrite fmap_take, fmap_drop.
    apply descending_take, descending_drop, descending_order_by.
Qed.

(** X14: pages fit together: the page of [limit1] rows at [offset] followed
    by the page of [limit2] rows at [offset + limit1] is the page of
    [limit1 + limit2] rows at [offset], and a page never has more rows than
    its limit. *)
Theorem get_events_pages_concatenate (db : Db) (category action : option string)
    (since : option Datetime.zoned) (limit1 limit2 offset : Z) :
  0 <= limit1 -> 0 <= limit2 -> 0 <= offset ->
  (get_events db category action since limit1 offset
   ++ get_events db category action since limit2 (offset + limit1))%list
  = get_events db category action since (limit1 + limit2) offset
  ∧ Z.of_nat (length (get_events db category action since limit1 offset))
    <= limit1.
Proof.
  intros H1 H2 Ho. unfold get_events, limit_offset.
  rewrite !(proj2 (Z.ltb_ge _ 0)) by lia.
  rewrite !Z2Nat.inj_add by lia.
  split.
  - rewrite <- drop_drop. apply take_take_drop.
  - rewrite length_take. lia.
Qed.

Lemma get_events_pages_concatenate_witness :
  (get_events Sample.db_three_events None None None 1 0
   ++ get_events Sample.db_three_events None None None 2 (0 + 1))%list
  = get_events Sample.db_three_events None None None (1 + 2) 0.
Proof.
  apply (get_events_pages_concatenate Sample.db_three_events None None None 1 2 0);
    lia.
Defined.

Lemma elem_of_insert_alert_desc (r x : AlertRow) (sorted : list AlertRow) :
  x ∈ insert_alert_desc r sorted ↔ x = r ∨ x ∈ sorted.
Proof.
  induction sorted as [|y rest IH]; cbn.
  - rewrite list_elem_of_singleton, elem_of_nil. tauto.
  - destruct (String.leb _ _).
    + rewrite elem_of_cons. tauto.
    + rewrite !elem_of_cons, IH. tauto.
Qed.

Lemma elem_of_order_by_created_at (x : AlertRow) (rows : list AlertRow) :
  x ∈ order_by_created_at_desc rows ↔ x ∈ rows.
Proof.
  unfold order_by_created_at_desc.
  induction rows as [|r rest IH]; cbn; [reflexivity|].
  rewrite elem_of_insert_alert_desc, elem_of_cons, IH. reflexivity.
Qed.

Lemma elem_of_limit_offset {A} (limit offset : Z) (rows : list A) (x : A) :
  x ∈ limit_offset limit offset rows -> x ∈ rows.
Proof.
  unfold limit_offset. destruct (limit <? 0); intros Hin.
  - eapply subseteq_drop. exact Hin.
  - eapply subseteq_drop, subseteq_take. exact Hin.
Qed.

(** Every listed alert comes from a stored row that passes the clauses. *)
Lemma get_alerts_origin (db : Db) (severity : option string)
    (acknowledged : option bool) (limit offset : Z) (d : AlertDict) :
  d ∈ get_alerts db severity acknowledged limit offset ->
  ∃ r, r ∈ alerts db ∧ d = _row_to_dict r
       ∧ (forall s, truthy_str severity = Some s -> alert_severity r = s)
       ∧ (forall a, acknowledged = Some a ->
            Database.acknowledged r = if a then 1 else 0).
Proof.
  unfold get_alerts. intros Hin.
  apply list_elem_of_fmap in Hin as (r & -> & Hin).
  apply elem_of_limit_offset in Hin.
  apply (proj1 (elem_of_order_by_created_at _ _)) in Hin.
  apply list_elem_of_filter in Hin as [Hwhere Hin].
  exists r. split; [exact Hin|]. split; [reflexivity|].
  destruct (truthy_str severity) as [s|], acknowledged as [a|];
    cbn in Hwhere; rewrite ?andb_true_r in Hwhere;
    repeat match type of Hwhere with
    | (_ && _ = true) => apply andb_true_iff in Hwhere as [? Hwhere]
    end;
    split; intros ? [= <-];
    first [ by apply String.eqb_eq | by apply Z.eqb_eq ].
Qed.

(** X15: every alert that [get_alerts] lists has the severity asked for
    (when a non-empty one is given) and the acknowledged flag asked for (when
    one is given, [False] included); so after [acknowledge_alert(id)] the
    listing of unacknowledged alerts has no alert with that id. *)
Theorem get_alerts_honours_filters (db : Db) (severity : option string)
    (acknowledged : option bool) (limit offset : Z) (wanted : string)
    (d : AlertDict) :
  (d ∈ get_alerts db severity acknowledged limit offset ->
     (forall s, truthy_str severity = Some s -> dict_severity d = s)
     ∧ (forall a, acknowledged = Some a -> dict_acknowledged d = a))
  ∧ (d ∈ get_alerts (acknowledge_alert db wanted).1 severity (Some false)
           limit offset ->
     dict_id d ≠ wanted).
Proof.
  split.
  - intros Hin. apply get_alerts_origin in Hin as (r & _ & -> & Hsev & Hack).
    split; [exact Hsev|].
    intros a Ha. cbn. rewrite (Hack a Ha). destruct a; reflexivity.
  - intros Hin. apply get_alerts_origin in Hin as (r & Hr & -> & _ & Hack).
    specialize (Hack false eq_refl). cbn in Hr, Hack.
    apply list_elem_of_fmap in Hr as (r0 & -> & _). cbn.
    destruct (String.eqb_spec (alert_id r0) wanted) as [Heq|Hne];
      [discriminate|exact Hne].
Qed.

End StoreQueries.

(** * Timeline engine: one event end to end *)

(** Replace each decidable guard over a known action by its value. *)
Ltac compute_guards :=
  repeat match goal with
  | H : context [bool_decide ?P] |- _ =>
      let b := eval vm_compute in (bool_decide P) in
      change (bool_decide P) with b in H
  | |- context [bool_decide ?P] =>
      let b := eval vm_compute in (bool_decide P) in
      change (bool_decide P) with b
  end.

Section TimelinePipeline.

Import Timeline Spec.

(** X16: the rules exclude one another: every event raises at most one
    alert, and none unless its action is a file action,
    [active_during_away], [login_failed] or [session_rdp]; with an empty
    away list only [active_during_away] and [login_failed] raise one.  The
    alert is new: unacknowledged, not snoozed, created at the instant the
    constructor reads, with the event's source as its source. *)
Theorem evaluate_at_most_one_alert (self : TimelineEngine) (uuid : nat -> string)
    (clock : datetime) (event : TimelineEvent) :
  (length (_evaluate self uuid clock event) <= 1)%nat
  ∧ (alerting_action (Event.action event) = false ->
     _evaluate self uuid clock event = [])
  ∧ (_away_windows self = [] ->
     Event.action event ≠ Event.ACTIVE_DURING_AWAY ->
     Event.action event ≠ Event.LOGIN_FAILED ->
     _evaluate self uuid clock event = [])
  ∧ (forall a, a ∈ _evaluate self uuid clock event ->
       Alert.id a = uuid 0%nat
       ∧ Alert.acknowledged a = false
       ∧ Alert.snoozed_until a = None
       ∧ Alert.created_at a = clock
       ∧ Alert.source a = Event.source_value (Event.source event)).
Proof.
  unfold _evaluate. rewrite in_away_guard.
  destruct event as [eid src cat act subj tgt det sev ts].
  cbn [Event.action Event.timestamp Event.detail Event.id Event.target Event.source].
  split; [|split; [|split]].
  - destruct (InputMonitor._is_within_away_window ts (_away_windows self)); destruct act;
      compute_guards; cbn; lia.
  - destruct (InputMonitor._is_within_away_window ts (_away_windows self)); destruct act; intros Hquiet;
      first [ by vm_compute in Hquiet | compute_guards; reflexivity ].
  - intros Hnone. rewrite Hnone. cbn [InputMonitor._is_within_away_window].
    destruct act; intros Hactive Hlogin;
      first [ by destruct Hactive | by destruct Hlogin
            | compute_guards; reflexivity ].
  - destruct (InputMonitor._is_within_away_window ts (_away_windows self)); destruct act;
      compute_guards; cbn -[insert spread]; intros a Ha;
      try (by apply elem_of_nil in Ha);
      apply list_elem_of_singleton in Ha; subst a; repeat split.
Qed.

(** An event raises no alert or one. *)
Lemma evaluate_nil_or_one (self : TimelineEngine) (uuid : nat -> string)
    (clock : datetime) (event : TimelineEvent) :
  _evaluate self uuid clock event = []
  ∨ ∃ a, _evaluate self uuid clock event = [a].
Proof.
  unfold _evaluate. rewrite in_away_guard.
  destruct event as [eid src cat act subj tgt det sev ts].
  cbn [Event.action Event.timestamp Event.detail Event.id Event.target Event.source].
  destruct (InputMonitor._is_within_away_window ts (_away_windows self));
    destruct act; compute_guards; cbn -[insert spread]; eauto.
Qed.

(** The loop on the one alert of an event. *)
Lemma handle_alerts_one (self : TimelineEngine) (a : Alert.Alert) (w : World) :
  let w' := _handle_alerts self [a] w in
  delivered w'
  = (delivered w
     ++ match _on_alert self with
        | Some on_alert => List.filter (fun a => returns (on_alert a)) [a]
        | None => []
        end)%list
  ∧ raised w'
    = raised w
      || match _on_alert self with
         | Some on_alert =>
             existsb (fun a => raises_base_exception (on_alert a)) [a]
         | None => false
         end
  ∧ (Database.alert_row a ∈ Database.alerts (db w')
     ∨ FailedToPersistAlert (Alert.id a) ∈ log w')
  ∧ (forall on_alert, _on_alert self = Some on_alert ->
       on_alert a = RaisesException ->
       OnAlertCallbackFailed (Alert.id a) ∈ log w')
  ∧ (forall on_alert, _on_alert self = Some on_alert ->
       on_alert a ≠ RaisesException ->
       OnAlertCallbackFailed (Alert.id a) ∈ log w' ->
       OnAlertCallbackFailed (Alert.id a) ∈ log w).
Proof.
  cbn zeta. cbn [_handle_alerts List.filter existsb].
  assert (Hstored : forall db',
    Database.insert_alert (db w) a = Some db' ->
    Database.alert_row a ∈ Database.alerts db').
  { intros db' Hins. unfold Database.insert_alert in Hins.
    destruct (existsb _ _); inversion Hins. cbn. unfold append.
    apply elem_of_app. right. apply list_elem_of_singleton. reflexivity. }
  destruct (_on_alert self) as [cb|]; [destruct (cb a) eqn:Hcb|];
    destruct (Database.insert_alert (db w) a) as [db'|] eqn:Hins;
    cbn [db log delivered raised returns raises_base_exception];
    unfold append;
    rewrite ?app_nil_r, ?orb_false_r, ?orb_true_r;
    (split; [reflexivity|]); (split; [reflexivity|]);
    (split; [first [ left; apply (Hstored _ eq_refl)
                   | right; rewrite ?elem_of_app, ?list_elem_of_singleton; auto ]|]);
    (split;
     [ intros on_alert Hsome Hraise;
       first [ discriminate Hsome
             | injection Hsome as <-; rewrite Hcb in Hraise;
               first [ discriminate Hraise
                     | rewrite ?elem_of_app, ?list_elem_of_singleton; auto ] ]
     | intros on_alert Hsome Hother Hin;
       first [ discriminate Hsome
             | injection Hsome as <-;
               first [ contradiction
                     | rewrite ?elem_of_app, ?list_elem_of_singleton in Hin;
                       intuition discriminate ] ] ]).
Qed.

(** X17: [_handle_event] keeps the steps apart.  The callback is awaited on
    the alert of the event whether or not the event or the alert could be
    stored, and the alerts it returns on are the ones delivered; every alert
    is either stored or the failure to store it is logged; a callback that
    raises an [Exception] is logged; the handler ends by raising exactly when
    the callback ends with a [BaseException], which is not caught: then
    nothing is logged for the callback, and, an event raising at most one
    alert, no alert is left out. *)
Theorem handle_event_isolates_failures (self : TimelineEngine)
    (uuid : nat -> string) (clock : datetime) (event : TimelineEvent) (w : World) :
  let w' := _handle_event self uuid clock event w in
  let alerts := _evaluate self uuid clock event in
  delivered w'
  = (delivered w
     ++ match _on_alert self with
        | Some on_alert => List.filter (fun a => returns (on_alert a)) alerts
        | None => []
        end)%list
  ∧ raised w'
    = raised w
      || match _on_alert self with
         | Some on_alert =>
             existsb (fun a => raises_base_exception (on_alert a)) alerts
         | None => false
         end
  ∧ (forall a, a ∈ alerts ->
       (Database.alert_row a ∈ Database.alerts (db w')
        ∨ FailedToPersistAlert (Alert.id a) ∈ log w')
       ∧ (forall on_alert, _on_alert self = Some on_alert ->
            on_alert a = RaisesException ->
            OnAlertCallbackFailed (Alert.id a) ∈ log w')
       ∧ (forall on_alert, _on_alert self = Some on_alert ->
            on_alert a ≠ RaisesException ->
            OnAlertCallbackFailed (Alert.id a) ∈ log w' ->
            OnAlertCallbackFailed (Alert.id a) ∈ log w)).
Proof.
  cbn zeta. unfold _handle_event.
  destruct (evaluate_nil_or_one self uuid clock event) as [Hnil|[a Hone]].
  - rewrite Hnil. cbn [_handle_alerts List.filter existsb].
    split; [|split].
    + destruct (_on_alert self), (Database.insert_event (db w) event);
        cbn; rewrite app_nil_r; reflexivity.
    + destruct (_on_alert self), (Database.insert_event (db w) event);
        cbn; rewrite orb_false_r; reflexivity.
    + intros a Ha. by apply elem_of_nil in Ha.
  - rewrite Hone.
    set (w1 := match Database.insert_event (db w) event with
               | Some db' => mkWorld db' (log w) (delivered w) (raised w)
               | None =>
                   mkWorld (db w)
                     (append (log w) (FailedToPersistEvent (Event.id event)))
                     (delivered w) (raised w)
               end).
    assert (Hw1 : delivered w1 = delivered w ∧ raised w1 = raised w
                  ∧ forall alert_id, OnAlertCallbackFailed alert_id ∈ log w1 ->
                      OnAlertCallbackFailed alert_id ∈ log w).
    { subst w1. destruct (Database.insert_event (db w) event); cbn;
        (split; [reflexivity|]); (split; [reflexivity|]);
        intros alert_id Hin; [exact Hin|].
      unfold append in Hin. apply elem_of_app in Hin as [Hin|Hin]; [exact Hin|].
      apply list_elem_of_singleton in Hin. discriminate. }
    destruct Hw1 as (Hdelivered & Hraised & Hlog).
    destruct (handle_alerts_one self a w1) as (Hd & Hr & Hs & Hf & Hq).
    rewrite Hdelivered in Hd. rewrite Hraised in Hr.
    split; [exact Hd|]. split; [exact Hr|].
    intros a' Ha'. apply list_elem_of_singleton in Ha'. subst a'.
    split; [exact Hs|]. split; [exact Hf|].
    intros on_alert Hsome Hother Hin. apply Hlog.
    exact (Hq on_alert Hsome Hother Hin).
Qed.

End TimelinePipeline.

(** * Session producer: what it publishes *)

Section SessionEvents.

Import SessionMonitor Spec.

(** The three tables, read as one. *)
Lemma session_action_table (n : Z) :
  session_action n
  = if n =? 4624 then Some Event.SESSION_LOGON
    else if n =? 4625 then Some Event.LOGIN_FAILED
    else if n =? 4800 then Some Event.SESSION_LOCK
    else if n =? 4801 then Some Event.SESSION_UNLOCK
    else if n =? 1 then Some Event.SYSTEM_WAKE
    else if n =? 42 then Some Event.SYSTEM_SLEEP
    else if n =? 107 then Some Event.SYSTEM_WAKE
    else if n =? 21 then Some Event.SESSION_RDP
    else if n =? 23 then Some Event.SESSION_LOGOFF
    else if n =? 24 then Some Event.SESSION_RDP
    else if n =? 25 then Some Event.SESSION_RDP
    else None.
Proof.
  destruct (Z.eqb_spec n 4624) as [->|?]; [reflexivity|].
  destruct (Z.eqb_spec n 4625) as [->|?]; [reflexivity|].
  destruct (Z.eqb_spec n 4800) as [->|?]; [reflexivity|].
  destruct (Z.eqb_spec n 4801) as [->|?]; [reflexivity|].
  destruct (Z.eqb_spec n 1) as [->|?]; [reflexivity|].
  destruct (Z.eqb_spec n 42) as [->|?]; [reflexivity|].
  destruct (Z.eqb_spec n 107) as [->|?]; [reflexivity|].
  destruct (Z.eqb_spec n 21) as [->|?]; [reflexivity|].
  destruct (Z.eqb_spec n 23) as [->|?]; [reflexivity|].
  destruct (Z.eqb_spec n 24) as [->|?]; [reflexivity|].
  destruct (Z.eqb_spec n 25) as [->|?]; [reflexivity|].
  unfold session_action, _SECURITY_EVENTS, _SYSTEM_EVENTS, _RDP_EVENTS.
  rewrite !lookup_insert_ne by lia. rewrite !lookup_empty. reflexivity.
Qed.

Lemma session_action_not_file (n : Z) (action : EventAction) :
  session_action n = Some action -> is_file_action action = false.
Proof.
  rewrite session_action_table.
  repeat (destruct (_ =? _); [intros [= <-]; reflexivity|]). discriminate.
Qed.

(** Every published event is built from one fetched record whose event id
    the tables know. *)
Lemma publish_all_shape (uuid : nat -> string) (now : datetime) (k : nat)
    (events : list Raw) (te : TimelineEvent) :
  te ∈ publish_all uuid now k events ->
  ∃ raw action,
    raw ∈ events
    ∧ session_action (event_id raw) = Some action
    ∧ Event.action te = action
    ∧ Event.source te = Event.SESSION_MONITOR
    ∧ Event.category te
      = (if bool_decide (action ∈ [Event.SYSTEM_WAKE; Event.SYSTEM_SLEEP])
         then Event.SYSTEM else Event.SESSION)
    ∧ Event.severity te
      = (if bool_decide (action = Event.LOGIN_FAILED) then "HIGH"
         else if bool_decide (action = Event.SESSION_RDP) then "MEDIUM"
         else "INFO")
    ∧ Event.detail te !! "event_id" = Some (VInt (event_id raw))
    ∧ Event.timestamp te = default now (raw_timestamp raw).
Proof.
  revert k. induction events as [|raw rest IH]; intros k Hin; cbn in Hin.
  - by apply elem_of_nil in Hin.
  - fold (session_action (event_id raw)) in Hin.
    destruct (session_action (event_id raw)) as [action|] eqn:Haction.
    + apply elem_of_cons in Hin as [->|Hin].
      * exists raw, action.
        cbn [Event.action Event.source Event.category Event.severity
             Event.detail Event.timestamp].
        split; [left|]. split; [exact Haction|].
        split; [reflexivity|]. split; [reflexivity|].
        split; [destruct (bool_decide _); reflexivity|].
        split; [reflexivity|]. split; [|reflexivity].
        rewrite !lookup_insert_ne by discriminate. apply lookup_insert_eq.
      * destruct (IH _ Hin) as (raw' & action' & Hraw & Hrest).
        exists raw', action'. split; [right; exact Hraw|exact Hrest].
    + destruct (IH _ Hin) as (raw' & action' & Hraw & Hrest).
      exists raw', action'. split; [right; exact Hraw|exact Hrest].
Qed.

(** X18: every event the session producer publishes has source
    [session_monitor], an action that the three tables give for the Windows
    event id kept under [event_id] in its [detail], category [system] for
    wake and sleep and [session] otherwise, and the severity hint HIGH for a
    failed login, MEDIUM for RDP and INFO otherwise. *)
Theorem session_events_classified (host : Host) (self : SessionMonitor)
    (uuid : nat -> string) (now : datetime) (te : TimelineEvent) :
  te ∈ (_poll_cycle host self uuid now).2 ->
  Event.source te = Event.SESSION_MONITOR
  ∧ (∃ n, session_action n = Some (Event.action te)
          ∧ Event.detail te !! "event_id" = Some (VInt n))
  ∧ Event.category te
    = (if bool_decide (Event.action te ∈ [Event.SYSTEM_WAKE; Event.SYSTEM_SLEEP])
       then Event.SYSTEM else Event.SESSION)
  ∧ Event.severity te
    = (if bool_decide (Event.action te = Event.LOGIN_FAILED) then "HIGH"
       else if bool_decide (Event.action te = Event.SESSION_RDP) then "MEDIUM"
       else "INFO").
Proof.
  intros Hin. unfold _poll_cycle in Hin. cbn [snd] in Hin.
  apply publish_all_shape in Hin
    as (raw & action & _ & Haction & Hact & Hsrc & Hcat & Hsev & Hid & _).
  rewrite Hact. split; [exact Hsrc|]. split; [|split; assumption].
  exists (event_id raw). split; assumption.
Qed.

Lemma session_events_classified_witness :
  Event.source Sample.native_login_failed_event = Event.SESSION_MONITOR
  ∧ (∃ n, session_action n = Some (Event.action Sample.native_login_failed_event)
          ∧ Event.detail Sample.native_login_failed_event !! "event_id"
            = Some (VInt n))
  ∧ Event.category Sample.native_login_failed_event
    = (if bool_decide (Event.action Sample.native_login_failed_event
                       ∈ [Event.SYSTEM_WAKE; Event.SYSTEM_SLEEP])
       then Event.SYSTEM else Event.SESSION)
  ∧ Event.severity Sample.native_login_failed_event
    = (if bool_decide (Event.action Sample.native_login_failed_event
                       = Event.LOGIN_FAILED) then "HIGH"
       else if bool_decide (Event.action Sample.native_login_failed_event
                            = Event.SESSION_RDP) then "MEDIUM"
       else "INFO").
Proof.
  apply (session_events_classified Sample.windows_host Sample.native_monitor
           Sample.uuid (Datetime.mk 2024 1 1 12 0 10 900000)).
  apply list_elem_of_In. vm_compute. left. reflexivity.
Defined.

(** The native reader only collects records whose masked event id is in
    the set it was given. *)
Lemma read_batch_ids (event_ids : gset Z) (since : datetime)
    (events : list NativeRecord) (results : list Raw) :
  Forall (fun raw => event_id raw ∈ event_ids) results ->
  Forall (fun raw => event_id raw ∈ event_ids)
    (match read_batch event_ids since events results with
     | inl r => r
     | inr r => r
     end).
Proof.
  revert results. induction events as [|ev rest IH]; intros results Hres; cbn.
  - exact Hres.
  - destruct (Datetime.leb (TimeGenerated ev) since); [exact Hres|].
    destruct (bool_decide _) eqn:Hid; [|apply IH; exact Hres].
    apply IH. unfold append. apply Forall_app. split; [exact Hres|].
    apply Forall_singleton. cbn. apply bool_decide_eq_true in Hid. exact Hid.
Qed.

Lemma read_batches_ids (event_ids : gset Z) (since : datetime)
    (batches : list (list NativeRecord)) (results : list Raw) :
  Forall (fun raw => event_id raw ∈ event_ids) results ->
  Forall (fun raw => event_id raw ∈ event_ids)
    (read_batches event_ids since batches results).
Proof.
  revert results. induction batches as [|events more IH]; intros results Hres.
  - exact Hres.
  - destruct events as [|ev rest]; [exact Hres|].
    cbn [read_batches].
    pose proof (read_batch_ids event_ids since (ev :: rest) results Hres) as Hb.
    destruct (read_batch event_ids since (ev :: rest) results) as [r|r].
    + apply IH. exact Hb.
    + exact Hb.
Qed.

Lemma native_reader_ids (host : Host) (log_type : string)
    (source : option string) (event_ids : gset Z) (since : datetime) :
  Forall (fun raw => event_id raw ∈ event_ids)
    (_read_events_blocking host log_type source event_ids since None).
Proof.
  unfold _read_events_blocking.
  destruct (negb (is_windows host)); [constructor|].
  destruct (negb (has_pywin32 host)); [constructor|].
  apply read_batches_ids. constructor.
Qed.

Lemma known_id_has_action (n : Z) :
  n ∈ dom _SECURITY_EVENTS ∨ n ∈ dom _SYSTEM_EVENTS ∨ n ∈ dom _RDP_EVENTS ->
  is_Some (session_action n).
Proof.
  unfold session_action, or_else. rewrite !elem_of_dom.
  intros [[a Ha]|[[a Ha]|[a Ha]]]; rewrite ?Ha;
    repeat (destruct (_ !! n)); eauto.
Qed.

Lemma publish_all_known (uuid : nat -> string) (now : datetime) (k : nat)
    (events : list Raw) :
  Forall (fun raw => is_Some (session_action (event_id raw))) events ->
  map (fun te => (Event.detail te !! "event_id", Event.timestamp te))
    (publish_all uuid now k events)
  = map (fun raw => (Some (VInt (event_id raw)), default now (raw_timestamp raw)))
      events.
Proof.
  revert k. induction events as [|raw rest IH]; intros k Hall; [reflexivity|].
  apply Forall_cons in Hall as [[action Haction] Hall].
  cbn [publish_all]. fold (session_action (event_id raw)). rewrite Haction.
  cbn [map Event.detail Event.timestamp]. rewrite (IH _ Hall).
  rewrite !lookup_insert_ne by discriminate. rewrite lookup_insert_eq.
  reflexivity.
Qed.

(** X19: with the native reader nothing that is read is dropped: the poll
    cycle publishes one event for every record the three reads return, in
    the order Security, System, RDP, each with the record's event id and
    timestamp. *)
Theorem native_poll_publishes_every_record (host : Host) (self : SessionMonitor)
    (uuid : nat -> string) (now : datetime) :
  _read_log_fn self = None ->
  map (fun te => (Event.detail te !! "event_id", Event.timestamp te))
    (_poll_cycle host self uuid now).2
  = map (fun raw => (Some (VInt (event_id raw)), default now (raw_timestamp raw)))
      (_fetch_all host self (_last_read_time self)).
Proof.
  intros Hnone. unfold _poll_cycle. cbn [snd].
  apply publish_all_known. unfold _fetch_all. rewrite Hnone.
  rewrite !Forall_app. repeat split;
    (eapply Forall_impl; [apply native_reader_ids|]);
    cbn; intros raw Hraw; apply known_id_has_action; auto.
Qed.

Lemma native_poll_publishes_every_record_witness :
  map (fun te => (Event.detail te !! "event_id", Event.timestamp te))
    (_poll_cycle Sample.windows_host Sample.native_monitor Sample.uuid
       (Datetime.mk 2024 1 1 12 0 10 900000)).2
  = map (fun raw => (Some (VInt (event_id raw)),
                     default (Datetime.mk 2024 1 1 12 0 10 900000)
                       (raw_timestamp raw)))
      (_fetch_all Sample.windows_host Sample.native_monitor
         (_last_read_time Sample.native_monitor)).
Proof.
  apply (native_poll_publishes_every_record Sample.windows_host
           Sample.native_monitor Sample.uuid
           (Datetime.mk 2024 1 1 12 0 10 900000)).
  reflexivity.
Defined.

Lemma read_batch_app (event_ids : gset Z) (since : datetime)
    (newer rest : list NativeRecord) (old : NativeRecord) (results : list Raw) :
  Datetime.leb (TimeGenerated old) since = true ->
  read_batch event_ids since (newer ++ old :: rest) results
  = inr (match read_batch event_ids since newer results with
         | inl r => r
         | inr r => r
         end).
Proof.
  intros Hold. revert results.
  induction newer as [|ev newer IH]; intros results; cbn.
  - rewrite Hold. reflexivity.
  - destruct (Datetime.leb (TimeGenerated ev) since); [reflexivity|].
    destruct (bool_decide _); apply IH.
Qed.

(** X20: the native reader stops at the first record that is not newer than
    [since]: what stands behind it in the batch, and every later batch, is
    not read, whatever its timestamp. *)
Theorem native_reader_stops_at_first_old (event_ids : gset Z) (since : datetime)
    (newer rest : list NativeRecord) (old : NativeRecord)
    (more : list (list NativeRecord)) :
  Datetime.leb (TimeGenerated old) since = true ->
  read_batches event_ids since ((newer ++ old :: rest)%list :: more) []
  = read_batches event_ids since [newer] [].
Proof.
  intros Hold.
  assert (Hcut : read_batches event_ids since ((newer ++ old :: rest)%list :: more) []
                 = match read_batch event_ids since newer [] with
                   | inl r => r
                   | inr r => r
                   end).
  { destruct (newer ++ old :: rest)%list as [|ev tail] eqn:Hshape.
    - destruct newer; discriminate.
    - cbn [read_batches]. rewrite <- Hshape, (read_batch_app _ _ _ _ _ _ Hold).
      reflexivity. }
  rewrite Hcut. destruct newer as [|ev tail]; [reflexivity|].
  cbn [read_batches]. destruct (read_batch _ _ _ _); reflexivity.
Qed.

Lemma native_reader_stops_at_first_old_witness :
  read_batches (dom _SECURITY_EVENTS) Sample.monday_noon
    (([mkNative 4625 (Datetime.mk 2024 1 1 12 0 11 0) "Security" "failed"]
      ++ mkNative 4624 (Datetime.mk 2024 1 1 11 0 0 0) "Security" "logon"
         :: [mkNative 4625 (Datetime.mk 2024 1 1 12 0 20 0) "Security" "late"])%list
     :: [[mkNative 4624 (Datetime.mk 2024 1 1 12 0 30 0) "Security" "later"]])
    []
  = read_batches (dom _SECURITY_EVENTS) Sample.monday_noon
      [[mkNative 4625 (Datetime.mk 2024 1 1 12 0 11 0) "Security" "failed"]] [].
Proof.
  apply (native_reader_stops_at_first_old (dom _SECURITY_EVENTS)
           Sample.monday_noon).
  reflexivity.
Defined.

(** X21: on a host that is not Windows, or where [win32evtlog] does not
    import, a monitor without an injected reader publishes nothing, and the
    cycle still moves the high-water mark to its start instant. *)
Theorem poll_without_event_log_is_silent (host : Host) (self : SessionMonitor)
    (uuid : nat -> string) (now : datetime) :
  _read_log_fn self = None ->
  is_windows host && has_pywin32 host = false ->
  _poll_cycle host self uuid now = (mk None now, []).
Proof.
  intros Hnone Hhost. unfold _poll_cycle, _fetch_all, _read_events_blocking.
  rewrite Hnone.
  destruct (is_windows host); [destruct (has_pywin32 host)|];
    try discriminate; reflexivity.
Qed.

Lemma poll_without_event_log_is_silent_witness :
  _poll_cycle Sample.linux_host Sample.native_monitor Sample.uuid Sample.jan_1st
  = (mk None Sample.jan_1st, []).
Proof.
  apply (poll_without_event_log_is_silent Sample.linux_host Sample.native_monitor
           Sample.uuid Sample.jan_1st); reflexivity.
Defined.

End SessionEvents.

(** * Producers and the engine together *)

Section Pipeline.

Import Timeline Spec.

(** X22: a change to a file (not a directory) that the folder producer sees
    while its loop runs is enqueued as one event with the callback's action
    and target; handled by the engine, it raises exactly one HIGH alert that
    names the event's id and the target when the event's instant is inside an
    away window, and no alert otherwise. *)
Theorem folder_change_raises_high_alert (parent : string -> string) (kind : Watch)
    (monitor : FolderMonitor.FolderMonitor) (change : FolderMonitor.FsEvent)
    (eid : string) (stamp : datetime) (self : TimelineEngine)
    (uuid : nat -> string) (clock : datetime) :
  FolderMonitor.is_directory change = false ->
  FolderMonitor._loop_running monitor = true ->
  ∃ te,
    FolderMonitor._bridge_queue (folder_handler parent kind monitor change eid stamp)
    = append (FolderMonitor._bridge_queue monitor) te
    ∧ Event.id te = eid
    ∧ Event.action te = watch_action parent kind change
    ∧ Event.target te = watch_target kind change
    ∧ map (fun a => (Alert.severity a, Alert.detail a !! "event_id",
                     Alert.detail a !! "target"))
        (_evaluate self uuid clock te)
      = if InputMonitor._is_within_away_window stamp (_away_windows self)
        then [(Alert.HIGH, Some (VStr eid), Some (VStr (watch_target kind change)))]
        else [].
Proof.
  intros Hfile Hloop.
  destruct kind; cbn [folder_handler watch_action watch_target];
    unfold FolderMonitor.on_created, FolderMonitor.on_modified,
      FolderMonitor.on_deleted, FolderMonitor.on_moved, FolderMonitor._bridge;
    rewrite Hfile; cbn [negb];
    try (match goal with
         | |- context [FolderMonitor._ACTION_MAP !! ?k] =>
             let v := eval vm_compute in (FolderMonitor._ACTION_MAP !! k) in
             change (FolderMonitor._ACTION_MAP !! k) with v
         end);
    cbv beta iota zeta; unfold FolderMonitor._enqueue; rewrite Hloop;
    cbn [FolderMonitor._bridge_queue];
    eexists; (split; [reflexivity|]);
    cbn [Event.id Event.action Event.target];
    (split; [reflexivity|]); (split; [reflexivity|]); (split; [reflexivity|]);
    unfold _evaluate; rewrite in_away_guard;
    cbn [Event.action Event.timestamp Event.detail Event.id Event.target Event.source];
    try destruct (String.eqb _ _);
    compute_guards;
    destruct (InputMonitor._is_within_away_window stamp (_away_windows self));
    cbn -[insert spread];
    rewrite ?lookup_insert_eq, ?(lookup_insert_ne _ "target" "event_id") by discriminate;
    rewrite ?lookup_insert_eq; reflexivity.
Qed.

Lemma folder_change_raises_high_alert_witness :
  ∃ te,
    FolderMonitor._bridge_queue
      (folder_handler Sample.docs_parent Moved Sample.folder_monitor
         Sample.rename_event "id-7" Sample.monday_noon)
    = append (FolderMonitor._bridge_queue Sample.folder_monitor) te
    ∧ Event.id te = "id-7"
    ∧ Event.action te = Event.FILE_RENAMED
    ∧ Event.target te = "/docs/b.txt"
    ∧ map (fun a => (Alert.severity a, Alert.detail a !! "event_id",
                     Alert.detail a !! "target"))
        (_evaluate Sample.away_engine Sample.uuid Sample.jan_1st te)
      = [(Alert.HIGH, Some (VStr "id-7"), Some (VStr "/docs/b.txt"))].
Proof.
  apply (folder_change_raises_high_alert Sample.docs_parent Moved
           Sample.folder_monitor Sample.rename_event "id-7" Sample.monday_noon
           Sample.away_engine Sample.uuid Sample.jan_1st);
    reflexivity.
Defined.

(** X23: the folder producer drops what it cannot or need not bridge: a
    change to a directory, and any change seen while its loop is not running;
    and a monitor started without folders stays stopped, schedules nothing
    and so drops every change. *)
Theorem folder_monitor_drops (parent : string -> string) (kind : Watch)
    (monitor : FolderMonitor.FolderMonitor) (change : FolderMonitor.FsEvent)
    (eid : string) (stamp : datetime) (recursive : bool) :
  (FolderMonitor.is_directory change = true ->
   folder_handler parent kind monitor change eid stamp = monitor)
  ∧ (FolderMonitor._loop_running monitor = false ->
     folder_handler parent kind monitor change eid stamp = monitor)
  ∧ FolderMonitor.start (FolderMonitor.new [] recursive)
    = FolderMonitor.new [] recursive
  ∧ folder_handler parent kind
      (FolderMonitor.start (FolderMonitor.new [] recursive)) change eid stamp
    = FolderMonitor.new [] recursive.
Proof.
  assert (Hstopped : FolderMonitor._loop_running monitor = false ->
            folder_handler parent kind monitor change eid stamp = monitor).
  { intros Hloop.
    destruct kind; cbn [folder_handler];
      unfold FolderMonitor.on_created, FolderMonitor.on_modified,
        FolderMonitor.on_deleted, FolderMonitor.on_moved, FolderMonitor._bridge;
      destruct (FolderMonitor.is_directory change); cbn [negb];
      try reflexivity;
      try (destruct (FolderMonitor._ACTION_MAP !! _); [|reflexivity]);
      cbv beta iota zeta; unfold FolderMonitor._enqueue; rewrite Hloop;
      reflexivity. }
  split; [|split; [exact Hstopped|split; [reflexivity|]]].
  - intros Hdir. destruct kind; cbn [folder_handler];
      unfold FolderMonitor.on_created, FolderMonitor.on_modified,
        FolderMonitor.on_deleted, FolderMonitor.on_moved;
      rewrite Hdir; reflexivity.
  - destruct kind; cbn [folder_handler];
      unfold FolderMonitor.on_created, FolderMonitor.on_modified,
        FolderMonitor.on_deleted, FolderMonitor.on_moved, FolderMonitor._bridge;
      destruct (FolderMonitor.is_directory change); cbn [negb];
      try reflexivity;
      try (destruct (FolderMonitor._ACTION_MAP !! _); [|reflexivity]);
      reflexivity.
Qed.

(** X24: an event that the input producer publishes, handled by the engine,
    raises exactly one MEDIUM alert when it is [active_during_away] (whatever
    the engine's own away list says) and none otherwise; the alert names the
    event's id and carries the idle time the producer measured. *)
Theorem input_event_raises_medium_alert (monitor : InputMonitor.InputMonitor)
    (idle : float) (now : datetime) (eid : string) (stamp : datetime)
    (self : TimelineEngine) (uuid : nat -> string) (clock : datetime)
    (te : TimelineEvent) :
  te ∈ (InputMonitor._poll_sample monitor idle now eid stamp).2 ->
  Event.id te = eid
  ∧ Event.source te = Event.INPUT_MONITOR
  ∧ map (fun a => (Alert.severity a, Alert.detail a !! "event_id",
                   Alert.detail a !! "idle_seconds"))
      (_evaluate self uuid clock te)
    = if bool_decide (Event.action te = Event.ACTIVE_DURING_AWAY)
      then [(Alert.MEDIUM, Some (VStr eid), Some (VFloat idle))]
      else [].
Proof.
  unfold InputMonitor._poll_sample.
  destruct (PrimFloat.ltb idle _);
    [destruct (_ && _); [|destruct (PrimFloat.eqb _ _)]
    |destruct (PrimFloat.ltb _ _)];
    cbn [snd]; intros Hin;
    try (by apply elem_of_nil in Hin);
    apply list_elem_of_singleton in Hin; subst te;
    (split; [reflexivity|]); (split; [reflexivity|]);
    unfold _evaluate; rewrite in_away_guard;
    cbn [Event.action Event.timestamp Event.detail Event.id Event.target Event.source];
    compute_guards; cbn -[insert spread]; reflexivity.
Qed.

Lemma input_event_raises_medium_alert_witness :
  map (fun a => (Alert.severity a, Alert.detail a !! "event_id",
                 Alert.detail a !! "idle_seconds"))
    (_evaluate Sample.engine Sample.uuid Sample.jan_1st
       (active_during_away_event Sample.monitor_office 1%float "e1"
          Sample.monday_noon))
  = [(Alert.MEDIUM, Some (VStr "e1"), Some (VFloat 1%float))].
Proof.
  refine (proj2 (proj2
    (input_event_raises_medium_alert Sample.monitor_office 1%float
       Sample.monday_noon "e1" Sample.monday_noon Sample.engine Sample.uuid
       Sample.jan_1st
       (active_during_away_event Sample.monitor_office 1%float "e1"
          Sample.monday_noon) _))).
  apply list_elem_of_In. vm_compute. left. reflexivity.
Defined.

(** X25: every alert the engine raises for an event of the session producer
    carries, under [event_id], the entry the event's own [detail] has under
    that key: the Windows event id that the producer put there, a number the
    tables map to the event's action, and not the id of the event. *)
Theorem session_event_alert_carries_windows_id (host : SessionMonitor.Host)
    (monitor : SessionMonitor.SessionMonitor) (ids : nat -> string)
    (now : datetime) (self : TimelineEngine) (uuid : nat -> string)
    (clock : datetime) (te : TimelineEvent) (a : Alert.Alert) :
  te ∈ (SessionMonitor._poll_cycle host monitor ids now).2 ->
  a ∈ _evaluate self uuid clock te ->
  Alert.detail a !! "event_id" = Event.detail te !! "event_id"
  ∧ Alert.detail a !! "event_id" ≠ Some (VStr (Event.id te))
  ∧ ∃ n, Event.detail te !! "event_id" = Some (VInt n)
         ∧ session_action n = Some (Event.action te).
Proof.
  intros Hte Ha. unfold SessionMonitor._poll_cycle in Hte. cbn [snd] in Hte.
  apply publish_all_shape in Hte
    as (raw & action & _ & Haction & Hact & _ & _ & _ & Hid & _).
  assert (Hcarried : Alert.detail a !! "event_id"
                     = Some (VInt (SessionMonitor.event_id raw))).
  { eapply evaluate_event_id_shadowed; [exact Ha| |exact Hid].
    rewrite Hact. eapply session_action_not_file. exact Haction. }
  split; [rewrite Hcarried, Hid; reflexivity|].
  split; [rewrite Hcarried; discriminate|].
  exists (SessionMonitor.event_id raw). rewrite Hact. split; assumption.
Qed.

Lemma session_event_alert_carries_windows_id_witness :
  let a :=
    new_alert "id-0" Sample.jan_1st Alert.HIGH
      "Failed login attempt detected" "session_monitor"
      (spread (<["event_id" := VStr "id-0"]> ∅)
         (Event.detail Sample.native_login_failed_event)) in
  Alert.detail a !! "event_id"
  = Event.detail Sample.native_login_failed_event !! "event_id"
  ∧ Alert.detail a !! "event_id"
    ≠ Some (VStr (Event.id Sample.native_login_failed_event))
  ∧ ∃ n, Event.detail Sample.native_login_failed_event !! "event_id"
         = Some (VInt n)
         ∧ session_action n
           = Some (Event.action Sample.native_login_failed_event).
Proof.
  apply (session_event_alert_carries_windows_id Sample.windows_host
           Sample.native_monitor Sample.uuid
           (Datetime.mk 2024 1 1 12 0 10 900000) Sample.engine Sample.uuid
           Sample.jan_1st Sample.native_login_failed_event).
  - apply list_elem_of_In. vm_compute. left. reflexivity.
  - apply list_elem_of_In. vm_compute. left. reflexivity.
Defined.

End Pipeline.

(** * Input producer: runs of samples *)

Section InputRuns.

Import InputMonitor.

(** X26: one sample publishes at most one event, and what it publishes is a
    user-input event of the input producer with the drawn id and timestamp;
    with an empty away list it is never [active_during_away]; afterwards the
    streak is zero or the old streak plus the poll interval. *)
Theorem poll_sample_publishes_at_most_one (self : InputMonitor) (idle : float)
    (now : datetime) (eid : string) (stamp : datetime) :
  let result := _poll_sample self idle now eid stamp in
  (length result.2 <= 1)%nat
  ∧ (forall te, te ∈ result.2 ->
       Event.id te = eid ∧ Event.timestamp te = stamp
       ∧ Event.source te = Event.INPUT_MONITOR
       ∧ Event.category te = Event.USER_INPUT
       ∧ Event.subject te = "" ∧ Event.target te = ""
       ∧ (_away_windows self = [] ->
          Event.action te ≠ Event.ACTIVE_DURING_AWAY))
  ∧ (_active_streak result.1 = 0%float
     ∨ _active_streak result.1
       = PrimFloat.add (_active_streak self) (_poll_interval self)).
Proof.
  cbn zeta. unfold _poll_sample.
  destruct (PrimFloat.ltb idle (_poll_interval self)).
  - cbn [set_active_streak _streak_threshold _active_streak _away_windows
         _poll_interval].
    destruct (PrimFloat.leb _ _ && truthy (_away_windows self)
              && _is_within_away_window now (_away_windows self)) eqn:Haway;
      [|destruct (PrimFloat.eqb _ _)]; cbn [fst snd length _active_streak];
      (split; [lia|]); (split; [|auto]);
      intros te Hin; try (by apply elem_of_nil in Hin);
      apply list_elem_of_singleton in Hin; subst te;
      repeat split; try discriminate.
    intros Hnone. rewrite Hnone in Haway. cbn in Haway.
    rewrite andb_false_r in Haway. discriminate.
  - destruct (PrimFloat.ltb 0 (_active_streak self));
      cbn [fst snd length set_active_streak _active_streak];
      (split; [lia|]); (split; [|auto]);
      intros te Hin; try (by apply elem_of_nil in Hin);
      apply list_elem_of_singleton in Hin; subst te;
      repeat split; discriminate.
Qed.

Lemma idle_run_is_silent (self : InputMonitor) (readings : list Reading) :
  _active_streak self = 0%float ->
  Forall (fun r => PrimFloat.ltb (idle r) (_poll_interval self) = false) readings ->
  _poll_loop self readings = (self, []).
Proof.
  intros Hzero Hidle. induction readings as [|r rest IH]; [reflexivity|].
  apply Forall_cons in Hidle as [Hr Hrest].
  cbn [_poll_loop]. unfold _poll_sample. rewrite Hr, Hzero.
  change (PrimFloat.ltb 0 0) with false. cbv iota.
  assert (Hsame : set_active_streak self 0%float = self)
    by (destruct self; cbn in Hzero; subst; reflexivity).
  rewrite Hsame, (IH Hrest). reflexivity.
Qed.

(** X27: while the user stays idle, [idle_started] is published at most
    once: a run of idle samples publishes what its first sample publishes and
    nothing after it, and leaves the streak at zero. *)
Theorem idle_started_once_per_idle_run (self : InputMonitor) (first : Reading)
    (rest : list Reading) :
  Forall (fun r => PrimFloat.ltb (idle r) (_poll_interval self) = false)
    (first :: rest) ->
  (_poll_loop self (first :: rest)).2
  = (_poll_sample self (idle first) (now first) (eid first) (stamp first)).2
  ∧ _active_streak (_poll_loop self (first :: rest)).1 = 0%float.
Proof.
  intros Hidle. apply Forall_cons in Hidle as [Hfirst Hrest].
  cbn [_poll_loop]. unfold _poll_sample. rewrite Hfirst.
  rewrite (idle_run_is_silent (set_active_streak self 0%float) rest);
    [|reflexivity|exact Hrest].
  unfold extend. rewrite app_nil_r. split; reflexivity.
Qed.

Lemma idle_started_once_per_idle_run_witness :
  (_poll_loop Sample.monitor_office
     [Sample.idle_reading "e1"; Sample.idle_reading "e2"; Sample.idle_reading "e3"]).2
  = (_poll_sample Sample.monitor_office 60%float Sample.monday_noon "e1"
       Sample.monday_noon).2
  ∧ _active_streak
      (_poll_loop Sample.monitor_office
         [Sample.idle_reading "e1"; Sample.idle_reading "e2";
          Sample.idle_reading "e3"]).1 = 0%float.
Proof.
  apply (idle_started_once_per_idle_run Sample.monitor_office
           (Sample.idle_reading "e1")
           [Sample.idle_reading "e2"; Sample.idle_reading "e3"]).
  repeat constructor.
Defined.

End InputRuns.

(** * Email notifier: throttling *)

Section EmailThrottle.

Import EmailNotifier.


(** X29: alerts that arrive within the throttle interval of the last send
    pile up: a run of [notify] calls, each read less than the interval after
    [_last_sent], appends the alerts to the pending list in arrival order,
    sends nothing and leaves [_last_sent] alone, whatever the transport would
    do. *)
Theorem throttled_alerts_accumulate (smtp : Message -> bool) (self : EmailNotifier)
    (last : datetime) (arrivals : list (Alert.Alert * datetime * datetime)) :
  _last_sent self = Some last ->
  Forall (fun arrival : Alert.Alert * datetime * datetime =>
            Datetime.to_micros arrival.1.2 - Datetime.to_micros last
            < _throttle self)
    arrivals ->
  notify_each smtp self arrivals
  = mk (_config self) (Some last)
      (extend (_pending self) (map (fun arrival => arrival.1.1) arrivals)).
Proof.
  intros Hlast Hall. revert self Hlast Hall.
  induction arrivals as [|[[alert now] sent_at] rest IH]; intros self Hlast Hall.
  - cbn. unfold extend. rewrite app_nil_r, <- Hlast. destruct self; reflexivity.
  - apply Forall_cons in Hall as [Hnow Hrest]. cbn [fst snd] in Hnow.
    cbn [notify_each]. unfold notify at 1. cbn [_last_sent]. rewrite Hlast.
    change (_throttle (mk (_config self) (Some last) (append (_pending self) alert)))
      with (_throttle self).
    rewrite (proj2 (Z.ltb_lt _ _) Hnow).
    rewrite IH; [|reflexivity|exact Hrest].
    cbn [_config _pending map fst]. unfold extend, append.
    rewrite <- app_assoc. reflexivity.
Qed.

Lemma throttled_alerts_accumulate_witness :
  notify_each Sample.smtp_up Sample.notifier
    [(Sample.alert_b, Datetime.mk 2024 1 1 12 1 0 0, Datetime.mk 2024 1 1 12 1 0 0);
     (Sample.alert_medium, Datetime.mk 2024 1 1 12 4 59 0,
      Datetime.mk 2024 1 1 12 4 59 0)]
  = mk Sample.email_config (Some Sample.monday_noon)
      (extend [Sample.alert_a1; Sample.alert_a2]
         [Sample.alert_b; Sample.alert_medium]).
Proof.
  apply (throttled_alerts_accumulate Sample.smtp_up Sample.notifier
           Sample.monday_noon).
  - reflexivity.
  - repeat constructor.
Defined.

End EmailThrottle.
